(** * aws_vpc: provisioning and teardown of a VPC topology

    A shallow embedding of [aws_vpc.py].  Every function of the script is a
    sequence of requests to the EC2 control plane issued through a boto3
    client; the client is an external collaborator.  A script function is
    therefore embedded as a finite tree of requests ([py]): each node names
    the client and the request, and continues with the provider's answer.
    A provider is any state machine answering requests, and [run] executes a
    tree against one, recording every request with its answer. *)

From Stdlib Require Import String List Bool Arith Lia.
Import ListNotations.
Local Open Scope string_scope.
Local Open Scope list_scope.

Set Implicit Arguments.

(** ** Data carried by requests and responses *)

(** [botocore.exceptions.ClientError(error_response, operation_name)];
    [error_response] is [{'Error': {'Code': ..., 'Message': ...}}]. *)
Record ClientError : Type := mkClientError {
  Error_Code : string;
  Error_Message : string;
  operation_name : string
}.

(** [{'Name': ..., 'Values': [...]}] *)
Record Filter : Type := mkFilter {
  Name : string;
  Values : list string
}.

(** [{'Key': ..., 'Value': ...}] *)
Record Tag : Type := mkTag {
  Key : string;
  Value : string
}.

(** Keyword argument of [modify_vpc_attribute] with its [{'Value': b}]. *)
Inductive VpcAttribute : Type :=
| EnableDnsSupport (b : bool)
| EnableDnsHostnames (b : bool).

(** Keyword argument of [modify_subnet_attribute] with its [{'Value': b}]. *)
Inductive SubnetAttribute : Type :=
| MapPublicIpOnLaunch (b : bool).

Record VpcInfo : Type := mkVpc {
  VpcId : string;
  CidrBlock : string
}.

Record InternetGatewayInfo : Type := mkIgw {
  InternetGatewayId : string
}.

Record RouteTableAssociation : Type := mkAssoc {
  RouteTableAssociationId : string;
  AssociationSubnetId : string
}.

Record RouteTableInfo : Type := mkRtb {
  RouteTableId : string;
  Associations : list RouteTableAssociation
}.

Record SubnetInfo : Type := mkSubnet {
  SubnetId : string;
  SubnetVpcId : string
}.

(** Response dictionaries, with the keys the script reads. *)
Record CreateVpcResponse : Type := { Vpc : VpcInfo }.
Record DescribeVpcsResponse : Type := { Vpcs : list VpcInfo }.
Record CreateInternetGatewayResponse : Type :=
  { InternetGateway : InternetGatewayInfo }.
Record DescribeInternetGatewaysResponse : Type :=
  { InternetGateways : list InternetGatewayInfo }.
Record CreateRouteTableResponse : Type := { RouteTable : RouteTableInfo }.
Record CreateRouteResponse : Type := { Return : bool }.
Record DescribeRouteTablesResponse : Type :=
  { RouteTables : list RouteTableInfo }.
Record CreateSubnetResponse : Type := { Subnet : SubnetInfo }.
Record AssociateRouteTableResponse : Type := { AssociationId : string }.
Record DescribeSubnetsResponse : Type := { Subnets : list SubnetInfo }.

(** ** The EC2 client *)

(** [boto3.client(service, region_name=region)] *)
Record Client : Type := mkClient {
  service_name : string;
  region_name : string
}.

Definition boto3_client (service region : string) : Client :=
  mkClient service region.

(** The client methods the script calls.  [wait] stands for
    [client.get_waiter(name).wait(VpcIds=...)]. *)
Module ec2.
Inductive request : Type :=
| create_vpc (CidrBlock : string)
| wait (waiter : string) (VpcIds : list string)
| create_tags (Resources : list string) (Tags : list Tag)
| delete_tags (Resources : list string)
| modify_vpc_attribute (VpcId : string) (attribute : VpcAttribute)
| describe_vpcs (Filters : list Filter)
| delete_vpc (VpcId : string)
| create_internet_gateway
| attach_internet_gateway (InternetGatewayId VpcId : string)
| detach_internet_gateway (InternetGatewayId VpcId : string)
| delete_internet_gateway (InternetGatewayId : string)
| describe_internet_gateways (Filters : list Filter)
| create_route_table (VpcId : string)
| create_route (RouteTableId DestinationCidrBlock GatewayId : string)
| describe_route_tables (Filters : list Filter)
| associate_route_table (RouteTableId SubnetId : string)
| disassociate_route_table (AssociationId : string)
| delete_route_table (RouteTableId : string)
| create_subnet (VpcId CidrBlock : string)
| modify_subnet_attribute (SubnetId : string) (attribute : SubnetAttribute)
| describe_subnets (Filters : list Filter)
| delete_subnet (SubnetId : string).

(** What each method returns when it does not raise.  Responses the
    script never reads are [unit]. *)
Definition response (r : request) : Type :=
  match r with
  | create_vpc _ => CreateVpcResponse
  | describe_vpcs _ => DescribeVpcsResponse
  | create_internet_gateway => CreateInternetGatewayResponse
  | describe_internet_gateways _ => DescribeInternetGatewaysResponse
  | create_route_table _ => CreateRouteTableResponse
  | create_route _ _ _ => CreateRouteResponse
  | describe_route_tables _ => DescribeRouteTablesResponse
  | associate_route_table _ _ => AssociateRouteTableResponse
  | create_subnet _ _ => CreateSubnetResponse
  | describe_subnets _ => DescribeSubnetsResponse
  | _ => unit
  end.
End ec2.

(** ** Script functions as request trees *)

Inductive py (A : Type) : Type :=
| Ret (a : A)
| Raise (e : ClientError)
| Call (client : Client) (r : ec2.request) (k : ec2.response r -> py A).

Arguments Ret {A} a.
Arguments Raise {A} e.
Arguments Call {A} client r k.

Fixpoint bind {A B : Type} (p : py A) (f : A -> py B) : py B :=
  match p with
  | Ret a => f a
  | Raise e => Raise e
  | Call c r k => Call c r (fun x => bind (k x) f)
  end.

Definition call (client : Client) (r : ec2.request) : py (ec2.response r) :=
  Call client r (fun x => Ret x).

Declare Scope py_scope.
Delimit Scope py_scope with py.
Notation "x <- p ;; q" := (bind p (fun x => q))
  (at level 61, p at next level, right associativity) : py_scope.
Notation "p ;; q" := (bind p (fun _ => q))
  (at level 61, right associativity) : py_scope.
Local Open Scope py_scope.

(** [for x in xs: body(x)] *)
Fixpoint for_each {X : Type} (xs : list X) (body : X -> py unit) : py unit :=
  match xs with
  | [] => Ret tt
  | x :: rest => body x ;; for_each rest body
  end.

(** [if cond: body] without [else] *)
Definition when (cond : bool) (body : py unit) : py unit :=
  if cond then body else Ret tt.

(** [if x is not None: body(x)] without [else] *)
Definition when_some {X : Type} (x : option X) (body : X -> py unit) : py unit :=
  match x with
  | Some v => body v
  | None => Ret tt
  end.

Definition name_tag (name : string) : list Tag := [mkTag "Name" name].

Definition create_vpc (region cidr_block : string) (vpc_name : option string)
    (wait : bool) : py CreateVpcResponse :=
  let client := boto3_client "ec2" region in
  vpc <- call client (ec2.create_vpc cidr_block) ;;
  let vpc_id := VpcId (Vpc vpc) in
  when wait (call client (ec2.wait "vpc_available" [vpc_id])) ;;
  when_some vpc_name (fun vpc_name =>
    call client (ec2.create_tags [vpc_id] (name_tag vpc_name))) ;;
  call client (ec2.modify_vpc_attribute vpc_id (EnableDnsHostnames true)) ;;
  Ret vpc.

Definition get_vpc_id (region cidr_block : string) : py (option string) :=
  let client := boto3_client "ec2" region in
  vpc <- call client (ec2.describe_vpcs [mkFilter "cidr" [cidr_block]]) ;;
  match Vpcs vpc with
  | first :: _ => Ret (Some (VpcId first))
  | [] => Ret None
  end.

Definition create_internet_gateway (region vpc_id : string)
    (igw_name : option string) : py CreateInternetGatewayResponse :=
  let client := boto3_client "ec2" region in
  igw <- call client ec2.create_internet_gateway ;;
  let igw_id := InternetGatewayId (InternetGateway igw) in
  when_some igw_name (fun igw_name =>
    call client (ec2.create_tags [igw_id] (name_tag igw_name))) ;;
  call client (ec2.attach_internet_gateway igw_id vpc_id) ;;
  Ret igw.

Definition get_vpc_internet_gateway_id (region vpc_id : string)
    : py (option string) :=
  let client := boto3_client "ec2" region in
  igw <- call client
    (ec2.describe_internet_gateways [mkFilter "attachment.vpc-id" [vpc_id]]) ;;
  match InternetGateways igw with
  | first :: _ => Ret (Some (InternetGatewayId first))
  | [] => Ret None
  end.

(** The [ClientError] the script builds itself when [create_route] answers
    with a false ['Return']. *)
Definition CreateRouteError : ClientError :=
  mkClientError "CreateRouteError" "Could not create the route" "CreateRoute".

Definition create_public_route_table (region vpc_id igw_id : string)
    (rtb_name : option string) : py CreateRouteTableResponse :=
  let client := boto3_client "ec2" region in
  rtb <- call client (ec2.create_route_table vpc_id) ;;
  let rtb_id := RouteTableId (RouteTable rtb) in
  response <- call client (ec2.create_route rtb_id "0.0.0.0/0" igw_id) ;;
  (if negb (Return response) then Raise CreateRouteError else Ret tt) ;;
  when_some rtb_name (fun rtb_name =>
    call client (ec2.create_tags [rtb_id] (name_tag rtb_name))) ;;
  Ret rtb.

Definition get_public_route_table_info (region igw_id : string)
    : py (option RouteTableInfo) :=
  let client := boto3_client "ec2" region in
  rtb <- call client
    (ec2.describe_route_tables [mkFilter "route.gateway-id" [igw_id]]) ;;
  match RouteTables rtb with
  | first :: _ => Ret (Some first)
  | [] => Ret None
  end.

Definition create_subnet (region vpc_id subnet_cidr_block : string)
    (subnet_name : option string) : py CreateSubnetResponse :=
  let client := boto3_client "ec2" region in
  subnet <- call client (ec2.create_subnet vpc_id subnet_cidr_block) ;;
  when_some subnet_name (fun subnet_name =>
    call client
      (ec2.create_tags [SubnetId (Subnet subnet)] (name_tag subnet_name))) ;;
  Ret subnet.

Definition associate_public_route (region rtb_id subnet_id : string)
    : py string :=
  let client := boto3_client "ec2" region in
  association <- call client (ec2.associate_route_table rtb_id subnet_id) ;;
  call client
    (ec2.modify_subnet_attribute subnet_id (MapPublicIpOnLaunch true)) ;;
  Ret (AssociationId association).

Definition get_subnets (region vpc_id : string) : py (list SubnetInfo) :=
  let client := boto3_client "ec2" region in
  subnets <- call client (ec2.describe_subnets [mkFilter "vpc-id" [vpc_id]]) ;;
  Ret (Subnets subnets).

Definition delete_vpc_resources (region cidr_block : string) : py unit :=
  vpc_id <- get_vpc_id region cidr_block ;;
  match vpc_id with
  | None => Ret tt
  | Some vpc_id =>
      let client := boto3_client "ec2" region in
      igw_id <- get_vpc_internet_gateway_id region vpc_id ;;
      when_some igw_id (fun igw_id =>
        rtb <- get_public_route_table_info region igw_id ;;
        when_some rtb (fun rtb =>
          for_each (Associations rtb) (fun association =>
            call client (ec2.disassociate_route_table
                           (RouteTableAssociationId association))) ;;
          let rtb_id := RouteTableId rtb in
          call client (ec2.delete_tags [rtb_id]) ;;
          call client (ec2.delete_route_table rtb_id)) ;;
        call client (ec2.delete_tags [igw_id]) ;;
        call client (ec2.detach_internet_gateway igw_id vpc_id) ;;
        call client (ec2.delete_internet_gateway igw_id)) ;;
      subnets <- get_subnets region vpc_id ;;
      for_each subnets (fun subnet =>
        let subnet_id := SubnetId subnet in
        call client (ec2.delete_tags [subnet_id]) ;;
        call client (ec2.delete_subnet subnet_id)) ;;
      call client (ec2.delete_tags [vpc_id]) ;;
      call client (ec2.delete_vpc vpc_id)
  end.

(** ** Running a request tree against a provider *)

(** One request as the provider saw it: who asked, what, and the answer
    ([inl]: the call raised; [inr]: the response). *)
Record Event : Type := Ev {
  ev_client : Client;
  ev_request : ec2.request;
  ev_result : ClientError + ec2.response ev_request
}.

Definition ev_ok (e : Event) : bool :=
  match ev_result e with
  | inr _ => true
  | inl _ => false
  end.

Inductive Outcome (A : Type) : Type :=
| Returned (a : A)
| Raised (e : ClientError).

Arguments Returned {A} a.
Arguments Raised {A} e.

Record Result (World A : Type) : Type := mkResult {
  outcome : Outcome A;
  trace : list Event;
  world : World
}.

(** A provider answers a request in a state of the cloud and moves to a new
    state. *)
Definition Provider (World : Type) : Type :=
  Client -> forall r : ec2.request, World ->
  (ClientError + ec2.response r) * World.

(** The result of a run that starts with event [e] and goes on as [r]. *)
Definition prepend {World A : Type} (e : Event) (r : Result World A)
    : Result World A :=
  mkResult (outcome r) (e :: trace r) (world r).

(** Sequencing of results: the second computation runs in the world the
    first one left, unless the first one raised. *)
Definition and_then {World A B : Type} (r : Result World A)
    (f : A -> World -> Result World B) : Result World B :=
  match outcome r with
  | Returned a =>
      let r' := f a (world r) in
      mkResult (outcome r') (trace r ++ trace r') (world r')
  | Raised e => mkResult (Raised e) (trace r) (world r)
  end.

Section Run.
Variable World : Type.
Variable provider : Provider World.

Fixpoint run {A : Type} (p : py A) (w : World) : Result World A :=
  match p with
  | Ret a => mkResult (Returned a) [] w
  | Raise e => mkResult (Raised e) [] w
  | Call c r k =>
      match provider c r w with
      | (inl e, w') => mkResult (Raised e) [Ev c r (inl e)] w'
      | (inr x, w') => prepend (Ev c r (inr x)) (run (k x) w')
      end
  end.

(** The provider's answer to one request in a given state. *)
Definition answer (w : World) (c : Client) (r : ec2.request)
    : ClientError + ec2.response r :=
  fst (provider c r w).

Definition after (w : World) (c : Client) (r : ec2.request) : World :=
  snd (provider c r w).
End Run.

(** Requests that remove something: every delete, detach, disassociate and
    tag removal of the client. *)
Definition is_removal (r : ec2.request) : bool :=
  match r with
  | ec2.delete_tags _
  | ec2.delete_vpc _
  | ec2.detach_internet_gateway _ _
  | ec2.delete_internet_gateway _
  | ec2.disassociate_route_table _
  | ec2.delete_route_table _
  | ec2.delete_subnet _ => true
  | _ => false
  end.

Definition is_create_tags (r : ec2.request) : bool :=
  match r with
  | ec2.create_tags _ _ => true
  | _ => false
  end.

(** Requests that change a route table's associations or remove it. *)
Definition is_route_table_change (r : ec2.request) : bool :=
  match r with
  | ec2.disassociate_route_table _
  | ec2.delete_route_table _ => true
  | _ => false
  end.

(** The requests of a trace, in order. *)
Definition requests (t : list Event) : list ec2.request :=
  map ev_request t.

(** [req] was answered without error somewhere in [t]. *)
Definition done_in (t : list Event) (req : ec2.request) : Prop :=
  exists e, In e t /\ ev_request e = req /\ ev_ok e = true.

(** ** Observations on traces *)

Definition is_wait (r : ec2.request) : bool :=
  match r with
  | ec2.wait _ _ => true
  | _ => false
  end.

Definition is_modify_vpc_attribute (r : ec2.request) : bool :=
  match r with
  | ec2.modify_vpc_attribute _ _ => true
  | _ => false
  end.

(** How many requests of a trace satisfy [p]. *)
Definition count (p : ec2.request -> bool) (t : list Event) : nat :=
  length (filter p (requests t)).

(** Every occurrence of request [b] in [t] comes after a successful [a]. *)
Definition preceded_by (t : list Event) (a b : ec2.request) : Prop :=
  forall pre e post,
    t = pre ++ e :: post -> ev_request e = b -> done_in pre a.


(** The error a failed event raised, if any. *)
Definition ev_error (e : Event) : option ClientError :=
  match ev_result e with
  | inl err => Some err
  | inr _ => None
  end.

(** The route tables a successful [describe_route_tables] event listed. *)
Definition ev_route_tables (e : Event) : list RouteTableInfo :=
  match e with
  | Ev _ r res =>
      match r return ClientError + ec2.response r -> list RouteTableInfo with
      | ec2.describe_route_tables _ => fun res =>
          match res with
          | inr resp => RouteTables resp
          | inl _ => []
          end
      | _ => fun _ => []
      end res
  end.

(** The subnets a successful [describe_subnets] event listed. *)
Definition ev_subnets (e : Event) : list SubnetInfo :=
  match e with
  | Ev _ r res =>
      match r return ClientError + ec2.response r -> list SubnetInfo with
      | ec2.describe_subnets _ => fun res =>
          match res with
          | inr resp => Subnets resp
          | inl _ => []
          end
      | _ => fun _ => []
      end res
  end.

(** [rtb] is the route table a lookup in [t] picked: the first record of a
    [describe_route_tables] answer. *)
Definition found_table (t : list Event) (rtb : RouteTableInfo) : Prop :=
  exists e, In e t /\ hd_error (ev_route_tables e) = Some rtb.

(** [s] is one of the subnets a [describe_subnets] answer in [t] listed. *)
Definition listed_subnet (t : list Event) (s : SubnetInfo) : Prop :=
  exists e, In e t /\ In s (ev_subnets e).

Definition is_delete_vpc (r : ec2.request) : bool :=
  match r with
  | ec2.delete_vpc _ => true
  | _ => false
  end.

(** Whenever [delete_route_table] is requested, the table is the one the
    lookup picked and every association the lookup listed on it has been
    disassociated before. *)
Definition disassociated_before_delete (t : list Event) : Prop :=
  forall pre e post rtb_id,
    t = pre ++ e :: post ->
    ev_request e = ec2.delete_route_table rtb_id ->
    exists rtb,
      found_table pre rtb /\ RouteTableId rtb = rtb_id
      /\ forall a, In a (Associations rtb) ->
           done_in pre
             (ec2.disassociate_route_table (RouteTableAssociationId a)).

(** Whenever [delete_internet_gateway] is requested, the same gateway has
    been detached before. *)
Definition detached_before_delete (t : list Event) : Prop :=
  forall pre e post igw_id,
    t = pre ++ e :: post ->
    ev_request e = ec2.delete_internet_gateway igw_id ->
    exists vpc_id,
      done_in pre (ec2.detach_internet_gateway igw_id vpc_id).

(** Whenever [delete_vpc] is requested, every listed subnet has been
    deleted before, and no [delete_subnet] request follows. *)
Definition subnets_before_vpc (t : list Event) : Prop :=
  forall pre e post vpc_id,
    t = pre ++ e :: post ->
    ev_request e = ec2.delete_vpc vpc_id ->
    (forall s, listed_subnet pre s ->
               done_in pre (ec2.delete_subnet (SubnetId s)))
    /\ (forall e' subnet_id,
          In e' post -> ev_request e' <> ec2.delete_subnet subnet_id).

(** ** Paths of a request tree *)

(** [returns p t a]: [t] is a path through [p] on which every request was
    answered without error, ending in [return a]. *)
Fixpoint returns {A : Type} (p : py A) (t : list Event) (a : A) : Prop :=
  match p with
  | Ret a' => t = [] /\ a = a'
  | Raise _ => False
  | Call c r k =>
      exists x t', t = Ev c r (inr x) :: t' /\ returns (k x) t' a
  end.

Section Safety.
(** [guard pre r]: request [r] is allowed after the events [pre]. *)
Variable guard : list Event -> ec2.request -> Prop.

(** Every request of [p] is allowed where it stands, whatever the
    provider answered before it; [pre] holds the events so far. *)
Fixpoint safe {A : Type} (pre : list Event) (p : py A) : Prop :=
  match p with
  | Ret _ => True
  | Raise _ => True
  | Call c r k =>
      guard pre r /\ forall x, safe (pre ++ [Ev c r (inr x)]) (k x)
  end.
End Safety.

(** No [delete_vpc] request among the events. *)
Definition no_vpc_deleted (t : list Event) : Prop :=
  forall e, In e t -> is_delete_vpc (ev_request e) = false.

(** What the teardown owes the provider before each removal. *)
Definition teardown_guard (pre : list Event) (r : ec2.request) : Prop :=
  match r with
  | ec2.delete_route_table rtb_id =>
      exists rtb,
        found_table pre rtb /\ RouteTableId rtb = rtb_id
        /\ forall a, In a (Associations rtb) ->
             done_in pre
               (ec2.disassociate_route_table (RouteTableAssociationId a))
  | ec2.delete_internet_gateway igw_id =>
      exists vpc_id, done_in pre (ec2.detach_internet_gateway igw_id vpc_id)
  | ec2.delete_vpc _ =>
      forall s, listed_subnet pre s ->
                done_in pre (ec2.delete_subnet (SubnetId s))
  | ec2.delete_subnet _ => no_vpc_deleted pre
  | _ => True
  end.



(** ** A test double for the provider

    An in-memory cloud that keeps the resources the script handles and
    enforces the provider's referential integrity: a route table with
    associations, an attached gateway, and a VPC that still owns subnets or
    a gateway cannot be deleted.  [route_ok] is the flag [create_route]
    answers with.  It is used to exercise the script on concrete runs. *)
Module Fake.
Record Gateway : Type := mkGateway {
  gw_id : string;
  gw_vpc : option string
}.

Record Table : Type := mkTable {
  tb_info : RouteTableInfo;
  tb_gateways : list string
}.

Record Cloud : Type := mkCloud {
  vpcs : list VpcInfo;
  gateways : list Gateway;
  tables : list Table;
  subnets : list SubnetInfo;
  public_ip : list string;
  dns_hostnames : list string;
  next_id : nat;
  route_ok : bool
}.

Definition empty : Cloud := mkCloud [] [] [] [] [] [] 0 true.

Definition fresh (prefix : string) (w : Cloud) : string :=
  prefix ++ String (Ascii.ascii_of_nat (48 + next_id w)) "".

Definition violation (op : string) : ClientError :=
  mkClientError "DependencyViolation" "resource has dependent objects" op.

Definition not_found (op : string) : ClientError :=
  mkClientError "NotFound" "no such resource" op.

(** A record with value [v] under [key] passes the filters when every
    filter on [key] lists [v]. *)
Definition passes (filters : list Filter) (key v : string) : bool :=
  forallb (fun f =>
    if String.eqb (Name f) key then existsb (String.eqb v) (Values f)
    else true) filters.

Definition passes_any (filters : list Filter) (key : string)
    (vs : list string) : bool :=
  forallb (fun f =>
    if String.eqb (Name f) key
    then existsb (fun v => existsb (String.eqb v) (Values f)) vs
    else true) filters.

Definition is_empty {X : Type} (l : list X) : bool :=
  match l with
  | [] => true
  | _ :: _ => false
  end.

Definition opt_list (o : option string) : list string :=
  match o with
  | Some v => [v]
  | None => []
  end.

Definition set_vpcs (w : Cloud) (l : list VpcInfo) : Cloud :=
  mkCloud l (gateways w) (tables w) (subnets w) (public_ip w)
          (dns_hostnames w) (next_id w) (route_ok w).
Definition set_gateways (w : Cloud) (l : list Gateway) : Cloud :=
  mkCloud (vpcs w) l (tables w) (subnets w) (public_ip w)
          (dns_hostnames w) (next_id w) (route_ok w).
Definition set_tables (w : Cloud) (l : list Table) : Cloud :=
  mkCloud (vpcs w) (gateways w) l (subnets w) (public_ip w)
          (dns_hostnames w) (next_id w) (route_ok w).
Definition set_subnets (w : Cloud) (l : list SubnetInfo) : Cloud :=
  mkCloud (vpcs w) (gateways w) (tables w) l (public_ip w)
          (dns_hostnames w) (next_id w) (route_ok w).
Definition set_public_ip (w : Cloud) (l : list string) : Cloud :=
  mkCloud (vpcs w) (gateways w) (tables w) (subnets w) l
          (dns_hostnames w) (next_id w) (route_ok w).
Definition set_dns_hostnames (w : Cloud) (l : list string) : Cloud :=
  mkCloud (vpcs w) (gateways w) (tables w) (subnets w) (public_ip w)
          l (next_id w) (route_ok w).
Definition tick (w : Cloud) : Cloud :=
  mkCloud (vpcs w) (gateways w) (tables w) (subnets w) (public_ip w)
          (dns_hostnames w) (S (next_id w)) (route_ok w).

Definition vpc_in_use (w : Cloud) (id : string) : bool :=
  existsb (fun s => String.eqb (SubnetVpcId s) id) (subnets w)
  || existsb (fun g => existsb (String.eqb id) (opt_list (gw_vpc g)))
             (gateways w).

Definition provider : Provider Cloud :=
  fun _ r =>
    match r return Cloud -> (ClientError + ec2.response r) * Cloud with
    | ec2.create_vpc cidr => fun w =>
        let v := mkVpc (fresh "vpc-" w) cidr in
        (inr {| Vpc := v |}, tick (set_vpcs w (vpcs w ++ [v])))
    | ec2.wait _ _ => fun w => (inr tt, w)
    | ec2.create_tags _ _ => fun w => (inr tt, w)
    | ec2.delete_tags _ => fun w => (inr tt, w)
    | ec2.modify_vpc_attribute id (EnableDnsHostnames true) => fun w =>
        (inr tt, set_dns_hostnames w (id :: dns_hostnames w))
    | ec2.modify_vpc_attribute _ _ => fun w => (inr tt, w)
    | ec2.describe_vpcs filters => fun w =>
        (inr {| Vpcs := filter (fun v => passes filters "cidr" (CidrBlock v))
                               (vpcs w) |}, w)
    | ec2.delete_vpc id => fun w =>
        if vpc_in_use w id then (inl (violation "DeleteVpc"), w)
        else (inr tt,
              set_vpcs w (filter (fun v => negb (String.eqb (VpcId v) id))
                                 (vpcs w)))
    | ec2.create_internet_gateway => fun w =>
        let id := fresh "igw-" w in
        (inr {| InternetGateway := mkIgw id |},
         tick (set_gateways w (gateways w ++ [mkGateway id None])))
    | ec2.attach_internet_gateway id vpc => fun w =>
        (inr tt,
         set_gateways w
           (map (fun g => if String.eqb (gw_id g) id
                          then mkGateway id (Some vpc) else g)
                (gateways w)))
    | ec2.detach_internet_gateway id _ => fun w =>
        (inr tt,
         set_gateways w
           (map (fun g => if String.eqb (gw_id g) id
                          then mkGateway id None else g)
                (gateways w)))
    | ec2.delete_internet_gateway id => fun w =>
        if existsb (fun g => String.eqb (gw_id g) id
                             && negb (is_empty (opt_list (gw_vpc g))))
                   (gateways w)
        then (inl (violation "DeleteInternetGateway"), w)
        else (inr tt,
              set_gateways w
                (filter (fun g => negb (String.eqb (gw_id g) id))
                        (gateways w)))
    | ec2.describe_internet_gateways filters => fun w =>
        (inr {| InternetGateways :=
                  map (fun g => mkIgw (gw_id g))
                    (filter (fun g => passes_any filters "attachment.vpc-id"
                                        (opt_list (gw_vpc g)))
                            (gateways w)) |}, w)
    | ec2.create_route_table _ => fun w =>
        let t := mkRtb (fresh "rtb-" w) [] in
        (inr {| RouteTable := t |},
         tick (set_tables w (tables w ++ [mkTable t []])))
    | ec2.create_route id _ gw => fun w =>
        if route_ok w
        then (inr {| Return := true |},
              set_tables w
                (map (fun t => if String.eqb (RouteTableId (tb_info t)) id
                               then mkTable (tb_info t) (gw :: tb_gateways t)
                               else t)
                     (tables w)))
        else (inr {| Return := false |}, w)
    | ec2.describe_route_tables filters => fun w =>
        (inr {| RouteTables :=
                  map tb_info
                    (filter (fun t => passes_any filters "route.gateway-id"
                                        (tb_gateways t))
                            (tables w)) |}, w)
    | ec2.associate_route_table id subnet => fun w =>
        let a := fresh "rtbassoc-" w in
        (inr {| AssociationId := a |},
         tick (set_tables w
           (map (fun t =>
                   if String.eqb (RouteTableId (tb_info t)) id
                   then mkTable
                          (mkRtb id (Associations (tb_info t)
                                     ++ [mkAssoc a subnet]))
                          (tb_gateways t)
                   else t)
                (tables w))))
    | ec2.disassociate_route_table a => fun w =>
        (inr tt,
         set_tables w
           (map (fun t =>
                   mkTable
                     (mkRtb (RouteTableId (tb_info t))
                        (filter (fun x =>
                                   negb (String.eqb
                                           (RouteTableAssociationId x) a))
                                (Associations (tb_info t))))
                     (tb_gateways t))
                (tables w)))
    | ec2.delete_route_table id => fun w =>
        if existsb (fun t => String.eqb (RouteTableId (tb_info t)) id
                             && negb (is_empty
                                        (Associations (tb_info t))))
                   (tables w)
        then (inl (violation "DeleteRouteTable"), w)
        else (inr tt,
              set_tables w
                (filter (fun t => negb (String.eqb
                                          (RouteTableId (tb_info t)) id))
                        (tables w)))
    | ec2.create_subnet vpc _ => fun w =>
        let s := mkSubnet (fresh "subnet-" w) vpc in
        (inr {| Subnet := s |}, tick (set_subnets w (subnets w ++ [s])))
    | ec2.modify_subnet_attribute id (MapPublicIpOnLaunch b) => fun w =>
        (inr tt,
         set_public_ip w
           (if b then id :: public_ip w
            else filter (fun x => negb (String.eqb x id)) (public_ip w)))
    | ec2.describe_subnets filters => fun w =>
        (inr {| Subnets := filter (fun s => passes filters "vpc-id"
                                              (SubnetVpcId s))
                                  (subnets w) |}, w)
    | ec2.delete_subnet id => fun w =>
        if existsb (fun s => String.eqb (SubnetId s) id) (subnets w)
        then (inr tt,
              set_subnets w
                (filter (fun s => negb (String.eqb (SubnetId s) id))
                        (subnets w)))
        else (inl (not_found "DeleteSubnet"), w)
    end.

(** The provisioning sequence of the script's [main], on the example
    configuration. *)
Definition provision : py unit :=
  vpc <- create_vpc "us-west-1" "10.1.0.0/16" (Some "vpc-boto3") true ;;
  let vpc_id := VpcId (Vpc vpc) in
  igw <- create_internet_gateway "us-west-1" vpc_id (Some "igw-boto3") ;;
  let igw_id := InternetGatewayId (InternetGateway igw) in
  route_table <- create_public_route_table "us-west-1" vpc_id igw_id
                   (Some "rtb-boto3-public") ;;
  let rtb_id := RouteTableId (RouteTable route_table) in
  subnet01 <- create_subnet "us-west-1" vpc_id "10.1.0.0/28"
                (Some "subnet-boto3-01-public") ;;
  associate_public_route "us-west-1" rtb_id (SubnetId (Subnet subnet01)) ;;
  create_subnet "us-west-1" vpc_id "10.1.1.0/28"
    (Some "subnet-boto3-02-private") ;;
  Ret tt.

(** The cloud after a full provisioning run. *)
Definition provisioned : Cloud := world (run provider provision empty).

(** A cloud holding one bare VPC: no gateway, no subnet. *)
Definition bare_vpc : Cloud :=
  world (run provider
           (create_vpc "us-west-1" "10.1.0.0/16" None false) empty).

(** A cloud holding a VPC with an attached gateway and two subnets, but
    no route table routing to the gateway. *)
Definition no_route_table : Cloud :=
  world (run provider
           (vpc <- create_vpc "us-west-1" "10.1.0.0/16" None false ;;
            let vpc_id := VpcId (Vpc vpc) in
            create_internet_gateway "us-west-1" vpc_id None ;;
            create_subnet "us-west-1" vpc_id "10.1.0.0/28" None ;;
            create_subnet "us-west-1" vpc_id "10.1.1.0/28" None ;;
            Ret tt) empty).

(** A cloud in which every lookup key is ambiguous: two VPCs with the
    same CIDR block, two gateways attached to the first VPC, and two
    route tables routing to the first gateway. *)
Definition duplicated : Cloud :=
  world (run provider
           (vpc <- create_vpc "us-west-1" "10.1.0.0/16" None false ;;
            let vpc_id := VpcId (Vpc vpc) in
            create_vpc "us-west-1" "10.1.0.0/16" None false ;;
            igw <- create_internet_gateway "us-west-1" vpc_id None ;;
            let igw_id := InternetGatewayId (InternetGateway igw) in
            create_internet_gateway "us-west-1" vpc_id None ;;
            create_public_route_table "us-west-1" vpc_id igw_id None ;;
            create_public_route_table "us-west-1" vpc_id igw_id None ;;
            Ret tt) empty).

(** A cloud in which [create_route] answers with a false flag. *)
Definition route_refused : Cloud :=
  mkCloud [] [] [] [] [] [] 0 false.


End Fake.


(** ** More observations on requests and traces *)

Definition is_describe (r : ec2.request) : bool :=
  match r with
  | ec2.describe_vpcs _
  | ec2.describe_internet_gateways _
  | ec2.describe_route_tables _
  | ec2.describe_subnets _ => true
  | _ => false
  end.

(** Requests that make a subnet public. *)
Definition is_publishing (r : ec2.request) : bool :=
  match r with
  | ec2.associate_route_table _ _
  | ec2.modify_subnet_attribute _ _ => true
  | _ => false
  end.

Definition is_attach (r : ec2.request) : bool :=
  match r with
  | ec2.attach_internet_gateway _ _ => true
  | _ => false
  end.

(** The VPCs a successful [describe_vpcs] event listed. *)
Definition ev_vpcs (e : Event) : list VpcInfo :=
  match e with
  | Ev _ r res =>
      match r return ClientError + ec2.response r -> list VpcInfo with
      | ec2.describe_vpcs _ => fun res =>
          match res with
          | inr resp => Vpcs resp
          | inl _ => []
          end
      | _ => fun _ => []
      end res
  end.

(** The gateways a successful [describe_internet_gateways] event listed. *)
Definition ev_gateways (e : Event) : list InternetGatewayInfo :=
  match e with
  | Ev _ r res =>
      match r return ClientError + ec2.response r
                     -> list InternetGatewayInfo with
      | ec2.describe_internet_gateways _ => fun res =>
          match res with
          | inr resp => InternetGateways resp
          | inl _ => []
          end
      | _ => fun _ => []
      end res
  end.

(** [req] was answered without error by the last event of [pre]. *)
Definition just_done (pre : list Event) (req : ec2.request) : Prop :=
  exists pre' e, pre = pre' ++ [e] /\ ev_request e = req /\ ev_ok e = true.

(** What comes right before each removal of the teardown: the deletion of
    the resource's tags, and for the gateway the detachment in between. *)
Definition teardown_tag_guard (pre : list Event) (r : ec2.request) : Prop :=
  match r with
  | ec2.delete_route_table id => just_done pre (ec2.delete_tags [id])
  | ec2.delete_subnet id => just_done pre (ec2.delete_tags [id])
  | ec2.delete_vpc id => just_done pre (ec2.delete_tags [id])
  | ec2.detach_internet_gateway id _ => just_done pre (ec2.delete_tags [id])
  | ec2.delete_internet_gateway id =>
      exists vpc_id, just_done pre (ec2.detach_internet_gateway id vpc_id)
  | _ => True
  end.

(** Every removal in [t] comes right after the deletion of the resource's
    tags (after the detachment, for the gateway's deletion). *)
Definition tags_deleted_just_before (t : list Event) : Prop :=
  forall pre e post,
    t = pre ++ e :: post -> teardown_tag_guard pre (ev_request e).

(** Every request of the tree, on every path, satisfies [P]. *)
Fixpoint calls_satisfy {A : Type} (P : Client -> ec2.request -> Prop)
    (p : py A) : Prop :=
  match p with
  | Ret _ => True
  | Raise _ => True
  | Call c r k => P c r /\ forall x, calls_satisfy P (k x)
  end.

(** The tree has no [raise] of its own: it can only fail where the
    provider does. *)
Fixpoint never_raises {A : Type} (p : py A) : Prop :=
  match p with
  | Ret _ => True
  | Raise _ => False
  | Call _ _ k => forall x, never_raises (k x)
  end.

(** The requests of a teardown that runs to its end, given what the four
    lookups answered: the dependency order of the resources. *)
Definition teardown_plan (cidr_block : string) (vpcs : list VpcInfo)
    (igws : list InternetGatewayInfo) (rtbs : list RouteTableInfo)
    (subnets : list SubnetInfo) : list ec2.request :=
  ec2.describe_vpcs [mkFilter "cidr" [cidr_block]]
  :: match vpcs with
     | [] => []
     | vpc :: _ =>
         ec2.describe_internet_gateways
           [mkFilter "attachment.vpc-id" [VpcId vpc]]
         :: match igws with
            | [] => []
            | igw :: _ =>
                ec2.describe_route_tables
                  [mkFilter "route.gateway-id" [InternetGatewayId igw]]
                :: match rtbs with
                   | [] => []
                   | rtb :: _ =>
                       map (fun a => ec2.disassociate_route_table
                                       (RouteTableAssociationId a))
                           (Associations rtb)
                       ++ [ec2.delete_tags [RouteTableId rtb];
                           ec2.delete_route_table (RouteTableId rtb)]
                   end
                ++ [ec2.delete_tags [InternetGatewayId igw];
                    ec2.detach_internet_gateway (InternetGatewayId igw)
                                                (VpcId vpc);
                    ec2.delete_internet_gateway (InternetGatewayId igw)]
            end
         ++ ec2.describe_subnets [mkFilter "vpc-id" [VpcId vpc]]
         :: flat_map (fun s => [ec2.delete_tags [SubnetId s];
                                ec2.delete_subnet (SubnetId s)]) subnets
         ++ [ec2.delete_tags [VpcId vpc]; ec2.delete_vpc (VpcId vpc)]
     end.

(** ** The entry point *)

Section Main.
Variable World : Type.
Variable provider : Provider World.

(** How [main] ends: [Some code] for [exit(code)], [None] when it returns.
  [try: a = p / except ClientError as e: logging.error(e); exit(1)],
  followed by [rest].  The [logging] calls write to the log only and are
  not part of the result. *)
Definition try_or_exit {A : Type} (p : py A) (w : World)
  (rest : A -> World -> Result World (option nat))
  : Result World (option nat) :=
let r := run provider p w in
match outcome r with
| Raised _ => mkResult (Returned (Some 1)) (trace r) (world r)
| Returned a =>
    let r' := rest a (world r) in
    mkResult (outcome r') (trace r ++ trace r') (world r')
end.

(** [main], from the parsed [--delete] flag on. *)
Definition main (delete_resources : bool) (w : World)
  : Result World (option nat) :=
let region := "us-west-1" in
let vpc_name := "vpc-boto3" in
let cidr_block := "10.1.0.0/16" in
let subnet01_cidr_block := "10.1.0.0/28" in
let subnet01_name := "subnet-boto3-01-public" in
let subnet02_cidr_block := "10.1.1.0/28" in
let subnet02_name := "subnet-boto3-02-private" in
let igw_name := "igw-boto3" in
let rtb_name := "rtb-boto3-public" in
if delete_resources then
  try_or_exit (delete_vpc_resources region cidr_block) w (fun _ w =>
  mkResult (Returned (Some 0)) [] w)
else
  try_or_exit (create_vpc region cidr_block (Some vpc_name) true) w
    (fun vpc w =>
  let vpc_id := VpcId (Vpc vpc) in
  try_or_exit (create_internet_gateway region vpc_id (Some igw_name)) w
    (fun igw w =>
  let igw_id := InternetGatewayId (InternetGateway igw) in
  try_or_exit
    (create_public_route_table region vpc_id igw_id (Some rtb_name)) w
    (fun route_table w =>
  let rtb_id := RouteTableId (RouteTable route_table) in
  try_or_exit
    (create_subnet region vpc_id subnet01_cidr_block (Some subnet01_name)) w
    (fun subnet01 w =>
  let subnet01_id := SubnetId (Subnet subnet01) in
  try_or_exit (associate_public_route region rtb_id subnet01_id) w
    (fun subnet01_association_id w =>
  try_or_exit
    (create_subnet region vpc_id subnet02_cidr_block (Some subnet02_name)) w
    (fun subnet02 w =>
  mkResult (Returned None) [] w)))))).
End Main.

(** A provider that behaves like the test double except that every request
    satisfying [bad] raises. *)
Definition failing_on (bad : ec2.request -> bool) : Provider Fake.Cloud :=
  fun c r w =>
    if bad r then (inl (Fake.violation "injected"), w)
    else Fake.provider c r w.

Definition is_modify_subnet_attribute (r : ec2.request) : bool :=
  match r with
  | ec2.modify_subnet_attribute _ _ => true
  | _ => false
  end.
(** ** Facts about [run] *)

Section RunFacts.
Variable World : Type.
Variable provider : Provider World.

Lemma run_bind (A B : Type) (p : py A) (f : A -> py B) (w : World) :
  run provider (bind p f) w
  = and_then (run provider p w) (fun a => run provider (f a)).
Proof.
  revert w.
  induction p as [a | e | c r k IH]; intro w; simpl.
  - unfold and_then; simpl.
    destruct (run provider (f a) w); reflexivity.
  - reflexivity.
  - destruct (provider c r w) as [[e | x] w']; [reflexivity |].
    rewrite IH. unfold and_then; simpl.
    destruct (outcome (run provider (k x) w')); reflexivity.
Qed.

Lemma answer_inl (w : World) (c : Client) (r : ec2.request) (e : ClientError) :
  answer provider w c r = inl e ->
  provider c r w = (inl e, after provider w c r).
Proof.
  unfold answer, after. destruct (provider c r w); simpl.
  intros ->. reflexivity.
Qed.

Lemma answer_inr (w : World) (c : Client) (r : ec2.request)
    (x : ec2.response r) :
  answer provider w c r = inr x ->
  provider c r w = (inr x, after provider w c r).
Proof.
  unfold answer, after. destruct (provider c r w); simpl.
  intros ->. reflexivity.
Qed.
Lemma provider_eta (w : World) (c : Client) (r : ec2.request) :
  provider c r w = (answer provider w c r, after provider w c r).
Proof.
  unfold answer, after. destruct (provider c r w); reflexivity.
Qed.

Lemma run_call_step (A : Type) (c : Client) (r : ec2.request)
    (k : ec2.response r -> py A) (w : World) :
  run provider (Call c r k) w
  = match answer provider w c r with
    | inl e => mkResult (Raised e) [Ev c r (inl e)] (after provider w c r)
    | inr x =>
        prepend (Ev c r (inr x))
                (run provider (k x) (after provider w c r))
    end.
Proof.
  unfold answer, after. simpl.
  destruct (provider c r w) as [[e | x] w']; reflexivity.
Qed.
End RunFacts.

Arguments answer : simpl never.
Arguments after : simpl never.

(** ** Lookup helpers *)

Section Lookups.
Variable World : Type.
Variable provider : Provider World.

Lemma get_vpc_id_run (region cidr_block : string) (w : World) :
  let c := boto3_client "ec2" region in
  let r := ec2.describe_vpcs [mkFilter "cidr" [cidr_block]] in
  run provider (get_vpc_id region cidr_block) w
  = match answer provider w c r with
    | inl e => mkResult (Raised e) [Ev c r (inl e)] (after provider w c r)
    | inr resp =>
        mkResult
          (Returned match Vpcs resp with
                    | first :: _ => Some (VpcId first)
                    | [] => None
                    end)
          [Ev c r (inr resp)] (after provider w c r)
    end.
Proof.
  unfold get_vpc_id, answer, after; simpl.
  destruct (provider _ _ w) as [[e | resp] w']; simpl; [reflexivity |].
  destruct (Vpcs resp); reflexivity.
Qed.

Lemma get_vpc_internet_gateway_id_run (region vpc_id : string) (w : World) :
  let c := boto3_client "ec2" region in
  let r := ec2.describe_internet_gateways
             [mkFilter "attachment.vpc-id" [vpc_id]] in
  run provider (get_vpc_internet_gateway_id region vpc_id) w
  = match answer provider w c r with
    | inl e => mkResult (Raised e) [Ev c r (inl e)] (after provider w c r)
    | inr resp =>
        mkResult
          (Returned match InternetGateways resp with
                    | first :: _ => Some (InternetGatewayId first)
                    | [] => None
                    end)
          [Ev c r (inr resp)] (after provider w c r)
    end.
Proof.
  unfold get_vpc_internet_gateway_id, answer, after; simpl.
  destruct (provider _ _ w) as [[e | resp] w']; simpl; [reflexivity |].
  destruct (InternetGateways resp); reflexivity.
Qed.

Lemma get_public_route_table_info_run (region igw_id : string) (w : World) :
  let c := boto3_client "ec2" region in
  let r := ec2.describe_route_tables
             [mkFilter "route.gateway-id" [igw_id]] in
  run provider (get_public_route_table_info region igw_id) w
  = match answer provider w c r with
    | inl e => mkResult (Raised e) [Ev c r (inl e)] (after provider w c r)
    | inr resp =>
        mkResult
          (Returned match RouteTables resp with
                    | first :: _ => Some first
                    | [] => None
                    end)
          [Ev c r (inr resp)] (after provider w c r)
    end.
Proof.
  unfold get_public_route_table_info, answer, after; simpl.
  destruct (provider _ _ w) as [[e | resp] w']; simpl; [reflexivity |].
  destruct (RouteTables resp); reflexivity.
Qed.

Lemma get_subnets_run (region vpc_id : string) (w : World) :
  let c := boto3_client "ec2" region in
  let r := ec2.describe_subnets [mkFilter "vpc-id" [vpc_id]] in
  run provider (get_subnets region vpc_id) w
  = match answer provider w c r with
    | inl e => mkResult (Raised e) [Ev c r (inl e)] (after provider w c r)
    | inr resp =>
        mkResult (Returned (Subnets resp)) [Ev c r (inr resp)]
                 (after provider w c r)
    end.
Proof.
  unfold get_subnets, answer, after; simpl.
  destruct (provider _ _ w) as [[e | resp] w']; reflexivity.
Qed.

(** C8.  A lookup helper whose describe call answers with an empty list
    does not raise: it returns [None].  It raises only the error the
    describe call itself raised.  This holds for [get_vpc_id],
    [get_vpc_internet_gateway_id] and [get_public_route_table_info]. *)
Theorem lookup_absent_returns_none (region key : string) (w : World) :
  let c := boto3_client "ec2" region in
  ((forall resp,
      answer provider w c (ec2.describe_vpcs [mkFilter "cidr" [key]])
      = inr resp ->
      Vpcs resp = [] ->
      outcome (run provider (get_vpc_id region key) w) = Returned None)
   /\ (forall e,
      outcome (run provider (get_vpc_id region key) w) = Raised e ->
      answer provider w c (ec2.describe_vpcs [mkFilter "cidr" [key]])
      = inl e))
  /\
  ((forall resp,
      answer provider w c
        (ec2.describe_internet_gateways
           [mkFilter "attachment.vpc-id" [key]]) = inr resp ->
      InternetGateways resp = [] ->
      outcome (run provider (get_vpc_internet_gateway_id region key) w)
      = Returned None)
   /\ (forall e,
      outcome (run provider (get_vpc_internet_gateway_id region key) w)
      = Raised e ->
      answer provider w c
        (ec2.describe_internet_gateways
           [mkFilter "attachment.vpc-id" [key]]) = inl e))
  /\
  ((forall resp,
      answer provider w c
        (ec2.describe_route_tables
           [mkFilter "route.gateway-id" [key]]) = inr resp ->
      RouteTables resp = [] ->
      outcome (run provider (get_public_route_table_info region key) w)
      = Returned None)
   /\ (forall e,
      outcome (run provider (get_public_route_table_info region key) w)
      = Raised e ->
      answer provider w c
        (ec2.describe_route_tables
           [mkFilter "route.gateway-id" [key]]) = inl e)).
Proof.
  intro c.
  rewrite get_vpc_id_run, get_vpc_internet_gateway_id_run,
    get_public_route_table_info_run.
  fold c.
  repeat split.
  - intros resp -> ->. reflexivity.
  - intro e. destruct (answer provider w c _); simpl; congruence.
  - intros resp -> ->. reflexivity.
  - intro e. destruct (answer provider w c _); simpl; congruence.
  - intros resp -> ->. reflexivity.
  - intro e. destruct (answer provider w c _); simpl; congruence.
Qed.

(** C9.  When the describe call answers with more than one record, each
    single-result lookup helper returns the first record of the list, in
    the provider's order, and does not raise. *)
Theorem lookup_many_returns_first (region key : string) (w : World) :
  let c := boto3_client "ec2" region in
  (forall first second rest,
      answer provider w c (ec2.describe_vpcs [mkFilter "cidr" [key]])
      = inr {| Vpcs := first :: second :: rest |} ->
      outcome (run provider (get_vpc_id region key) w)
      = Returned (Some (VpcId first)))
  /\
  (forall first second rest,
      answer provider w c
        (ec2.describe_internet_gateways
           [mkFilter "attachment.vpc-id" [key]])
      = inr {| InternetGateways := first :: second :: rest |} ->
      outcome (run provider (get_vpc_internet_gateway_id region key) w)
      = Returned (Some (InternetGatewayId first)))
  /\
  (forall first second rest,
      answer provider w c
        (ec2.describe_route_tables
           [mkFilter "route.gateway-id" [key]])
      = inr {| RouteTables := first :: second :: rest |} ->
      outcome (run provider (get_public_route_table_info region key) w)
      = Returned (Some first)).
Proof.
  intro c.
  rewrite get_vpc_id_run, get_vpc_internet_gateway_id_run,
    get_public_route_table_info_run.
  fold c.
  repeat split; intros first second rest ->; reflexivity.
Qed.
End Lookups.

(** ** Provisioning *)

Section Provisioning.
Variable World : Type.
Variable provider : Provider World.

(** C3.  When [create_route] answers with a false success flag,
    [create_public_route_table] raises the error it builds for that case
    ([CreateRouteError], the spec's RouteCreationError) and makes no
    [create_tags] call: the only requests are [create_route_table] and
    [create_route]. *)
Theorem create_route_false_raises_untagged
    (region vpc_id igw_id : string) (rtb_name : option string) (w : World)
    (rtb : CreateRouteTableResponse) (response : CreateRouteResponse) :
  let c := boto3_client "ec2" region in
  let rtb_id := RouteTableId (RouteTable rtb) in
  answer provider w c (ec2.create_route_table vpc_id) = inr rtb ->
  answer provider (after provider w c (ec2.create_route_table vpc_id)) c
    (ec2.create_route rtb_id "0.0.0.0/0" igw_id) = inr response ->
  Return response = false ->
  let r := run provider
             (create_public_route_table region vpc_id igw_id rtb_name) w in
  outcome r = Raised CreateRouteError
  /\ (forall e, In e (trace r) -> is_create_tags (ev_request e) = false)
  /\ requests (trace r)
     = [ec2.create_route_table vpc_id;
        ec2.create_route rtb_id "0.0.0.0/0" igw_id].
Proof.
  intros c rtb_id H1 H2 Hflag r.
  apply answer_inr in H1. apply answer_inr in H2.
  subst r. unfold create_public_route_table. fold c. simpl.
  rewrite H1. simpl. fold rtb_id. rewrite H2. simpl.
  rewrite Hflag. simpl.
  split; [reflexivity |]. split; [| reflexivity].
  intros e [<- | [<- | []]]; reflexivity.
Qed.


(** C5.  A successful [associate_public_route] made exactly two requests,
    both answered without error: [associate_route_table] for the given
    route table and subnet, whose association id is the value returned,
    and then [modify_subnet_attribute] setting [MapPublicIpOnLaunch] to
    true on the subnet. *)
Theorem associate_public_route_success
    (region rtb_id subnet_id : string) (w : World) (association_id : string) :
  let c := boto3_client "ec2" region in
  let r := run provider (associate_public_route region rtb_id subnet_id) w in
  outcome r = Returned association_id ->
  (exists association,
      trace r
      = [Ev c (ec2.associate_route_table rtb_id subnet_id) (inr association);
         Ev c (ec2.modify_subnet_attribute subnet_id
                 (MapPublicIpOnLaunch true)) (inr tt)]
      /\ association_id = AssociationId association)
  /\ done_in (trace r) (ec2.associate_route_table rtb_id subnet_id)
  /\ done_in (trace r)
       (ec2.modify_subnet_attribute subnet_id (MapPublicIpOnLaunch true)).
Proof.
  intros c r. subst r. unfold associate_public_route. fold c. simpl.
  destruct (provider c (ec2.associate_route_table rtb_id subnet_id) w)
    as [[e | association] w1]; simpl; [discriminate |].
  destruct (provider c (ec2.modify_subnet_attribute subnet_id
                          (MapPublicIpOnLaunch true)) w1)
    as [[e | []] w2]; simpl; [discriminate |].
  intro H. injection H as <-.
  split; [exists association; split; reflexivity |].
  split.
  - eexists. split; [left; reflexivity |]. split; reflexivity.
  - eexists. split; [right; left; reflexivity |]. split; reflexivity.
Qed.

(** C6.  A successful [create_vpc] made these requests and no other, all
    answered without error: [create_vpc]; the [vpc_available] waiter when
    [wait] is true; [create_tags] when a name is given; and last
    [modify_vpc_attribute] enabling DNS hostnames.  So the attribute is
    modified exactly once whatever [wait] and [vpc_name] are, and with
    [wait] true the waiter is called exactly once and the modification
    comes after it. *)
Theorem create_vpc_success
    (region cidr_block : string) (vpc_name : option string) (wait : bool)
    (w : World) (vpc : CreateVpcResponse) :
  let c := boto3_client "ec2" region in
  let r := run provider (create_vpc region cidr_block vpc_name wait) w in
  let vpc_id := VpcId (Vpc vpc) in
  let waiter := ec2.wait "vpc_available" [vpc_id] in
  let modify := ec2.modify_vpc_attribute vpc_id (EnableDnsHostnames true) in
  outcome r = Returned vpc ->
  trace r
  = Ev c (ec2.create_vpc cidr_block) (inr vpc)
    :: (if wait then [Ev c waiter (inr tt)] else [])
    ++ match vpc_name with
       | Some name => [Ev c (ec2.create_tags [vpc_id] (name_tag name))
                          (inr tt)]
       | None => []
       end
    ++ [Ev c modify (inr tt)]
  /\ count is_modify_vpc_attribute (trace r) = 1
  /\ done_in (trace r) modify
  /\ (wait = true ->
      count is_wait (trace r) = 1
      /\ done_in (trace r) waiter
      /\ preceded_by (trace r) waiter modify).
Proof.
  intros c r vpc_id waiter modify. subst r.
  unfold create_vpc. fold c. simpl.
  destruct (provider c (ec2.create_vpc cidr_block) w)
    as [[e | vpc'] w1]; simpl; [discriminate |].
  assert (Hshape :
    forall t : list Event,
      t = Ev c (ec2.create_vpc cidr_block) (inr vpc)
          :: (if wait then [Ev c waiter (inr tt)] else [])
          ++ match vpc_name with
             | Some name => [Ev c (ec2.create_tags [vpc_id] (name_tag name))
                                (inr tt)]
             | None => []
             end
          ++ [Ev c modify (inr tt)] ->
      count is_modify_vpc_attribute t = 1
      /\ done_in t modify
      /\ (wait = true ->
          count is_wait t = 1 /\ done_in t waiter
          /\ preceded_by t waiter modify)).
  { intros t ->. split; [| split].
    - destruct wait, vpc_name; reflexivity.
    - exists (Ev c modify (inr tt)).
      split; [| split; reflexivity].
      right. apply in_or_app. right. apply in_or_app. right. left.
      reflexivity.
    - intros ->. split; [destruct vpc_name; reflexivity |]. split.
      + eexists. split; [right; left; reflexivity | split; reflexivity].
      + intros pre e post Hsplit Hreq.
        exists (Ev c waiter (inr tt)).
        split; [| split; reflexivity].
        destruct pre as [| e0 pre]; simpl in Hsplit.
        { injection Hsplit as <- _. discriminate. }
        injection Hsplit as <- Hsplit.
        destruct pre as [| e1 pre]; simpl in Hsplit.
        { injection Hsplit as <- _. discriminate. }
        injection Hsplit as <- _. right. left. reflexivity. }
  destruct wait; simpl.
  - destruct (provider c (ec2.wait "vpc_available" [VpcId (Vpc vpc')]) w1)
      as [[e | []] w2]; simpl; [discriminate |].
    destruct vpc_name as [name |]; simpl.
    + destruct (provider c (ec2.create_tags _ _) w2)
        as [[e | []] w3]; simpl; [discriminate |].
      destruct (provider c (ec2.modify_vpc_attribute _ _) w3)
        as [[e | []] w4]; simpl; [discriminate |].
      intro H. injection H as ->.
      split; [reflexivity | apply Hshape; reflexivity].
    + destruct (provider c (ec2.modify_vpc_attribute _ _) w2)
        as [[e | []] w4]; simpl; [discriminate |].
      intro H. injection H as ->.
      split; [reflexivity | apply Hshape; reflexivity].
  - destruct vpc_name as [name |]; simpl.
    + destruct (provider c (ec2.create_tags _ _) w1)
        as [[e | []] w3]; simpl; [discriminate |].
      destruct (provider c (ec2.modify_vpc_attribute _ _) w3)
        as [[e | []] w4]; simpl; [discriminate |].
      intro H. injection H as ->.
      split; [reflexivity | apply Hshape; reflexivity].
    + destruct (provider c (ec2.modify_vpc_attribute _ _) w1)
        as [[e | []] w4]; simpl; [discriminate |].
      intro H. injection H as ->.
      split; [reflexivity | apply Hshape; reflexivity].
Qed.
End Provisioning.

(** ** Paths and guarded requests *)

Section SafetyFacts.
Variable guard : list Event -> ec2.request -> Prop.

Lemma safe_bind (A B : Type) (p : py A) (f : A -> py B) (pre : list Event) :
  safe guard pre p ->
  (forall t a, returns p t a -> safe guard (pre ++ t) (f a)) ->
  safe guard pre (bind p f).
Proof.
  revert pre.
  induction p as [a | e | c r k IH]; intros pre Hp Hf; simpl.
  - rewrite <- (app_nil_r pre). apply Hf. simpl. auto.
  - exact I.
  - destruct Hp as [Hg Hk]. split; [exact Hg |].
    intro x. apply IH; [apply Hk |].
    intros t a Ht. rewrite <- app_assoc. simpl.
    apply Hf. simpl. eauto.
Qed.

Lemma safe_bind_assoc (A B C : Type) (p : py A) (g : A -> py B)
    (f : B -> py C) (pre : list Event) :
  safe guard pre (bind p (fun x => bind (g x) f)) ->
  safe guard pre (bind (bind p g) f).
Proof.
  revert pre.
  induction p as [a | e | c r k IH]; intros pre H; simpl in *.
  - exact H.
  - exact I.
  - destruct H as [Hg Hk]. split; [exact Hg |].
    intro x. apply IH, Hk.
Qed.

(** A loop is safe when some property [J] of the events so far makes each
    iteration safe and is kept by each iteration. *)
Lemma safe_for_each (X : Type) (J : list Event -> Prop)
    (body : X -> py unit) (xs : list X) (pre : list Event) :
  (forall pre' x, J pre' -> safe guard pre' (body x)) ->
  (forall pre' x t a, J pre' -> returns (body x) t a -> J (pre' ++ t)) ->
  J pre ->
  safe guard pre (for_each xs body).
Proof.
  intros Hsafe Hkeep. revert pre.
  induction xs as [| x rest IH]; intros pre HJ; simpl; [exact I |].
  apply safe_bind; [apply Hsafe, HJ |].
  intros t a Ht. apply IH. eapply Hkeep; eauto.
Qed.

Section Sound.
Variable World : Type.
Variable provider : Provider World.

(** On every run of a safe tree, each request is allowed after the
    events that precede it in the trace. *)
Lemma safe_sound (A : Type) (p : py A) (pre : list Event) (w : World) :
  safe guard pre p ->
  forall t1 e t2,
    trace (run provider p w) = t1 ++ e :: t2 ->
    guard (pre ++ t1) (ev_request e).
Proof.
  revert pre w.
  induction p as [a | err | c r k IH]; intros pre w Hs t1 e t2; simpl.
  - intro H. destruct t1; discriminate.
  - intro H. destruct t1; discriminate.
  - destruct Hs as [Hg Hk].
    destruct (provider c r w) as [[err | x] w']; simpl; intro H.
    + destruct t1 as [| e0 t1]; simpl in H.
      * injection H as <- _. rewrite app_nil_r. exact Hg.
      * injection H as _ H. destruct t1; discriminate.
    + destruct t1 as [| e0 t1]; simpl in H.
      * injection H as <- _. rewrite app_nil_r. exact Hg.
      * injection H as <- H.
        specialize (IH x (pre ++ [Ev c r (inr x)]) w' (Hk x) t1 e t2 H).
        rewrite <- app_assoc in IH. exact IH.
Qed.
End Sound.
End SafetyFacts.

Lemma returns_bind (A B : Type) (p : py A) (f : A -> py B)
    (t : list Event) (b : B) :
  returns (bind p f) t b ->
  exists t1 a t2, returns p t1 a /\ returns (f a) t2 b /\ t = t1 ++ t2.
Proof.
  revert t.
  induction p as [a | e | c r k IH]; intros t H; simpl in *.
  - exists [], a, t. auto.
  - contradiction.
  - destruct H as (x & t' & -> & H).
    destruct (IH x t' H) as (t1 & a & t2 & H1 & H2 & ->).
    exists (Ev c r (inr x) :: t1), a, t2. simpl. eauto 8.
Qed.

(** The events of the successful disassociation loop. *)
Lemma returns_disassociate_loop (c : Client)
    (xs : list RouteTableAssociation) (t : list Event) (u : unit) :
  returns
    (for_each xs (fun association =>
       call c (ec2.disassociate_route_table
                 (RouteTableAssociationId association)))) t u ->
  t = map (fun a =>
             Ev c (ec2.disassociate_route_table (RouteTableAssociationId a))
                (inr tt)) xs.
Proof.
  revert t.
  induction xs as [| x rest IH]; intros t H; simpl in H.
  - destruct H as [-> _]. reflexivity.
  - destruct H as ([] & t' & -> & H). simpl. f_equal. apply IH, H.
Qed.

(** The events of the successful subnet deletion loop. *)
Lemma returns_subnet_loop (c : Client) (xs : list SubnetInfo)
    (t : list Event) (u : unit) :
  returns
    (for_each xs (fun subnet =>
       let subnet_id := SubnetId subnet in
       call c (ec2.delete_tags [subnet_id]) ;;
       call c (ec2.delete_subnet subnet_id))) t u ->
  t = flat_map (fun s =>
                  [Ev c (ec2.delete_tags [SubnetId s]) (inr tt);
                   Ev c (ec2.delete_subnet (SubnetId s)) (inr tt)]) xs.
Proof.
  revert t.
  induction xs as [| x rest IH]; intros t H; simpl in H.
  - destruct H as [-> _]. reflexivity.
  - destruct H as ([] & t' & -> & [] & t'' & -> & H).
    simpl. do 2 f_equal. apply IH, H.
Qed.

(** ** Teardown: every request is guarded *)

Ltac split_in H :=
  repeat match type of H with
         | In _ (_ ++ _) => apply in_app_or in H
         | In _ (_ :: _) => simpl in H
         | In _ [] => contradiction
         | _ \/ _ => destruct H as [H | H]
         | False => contradiction
         end.

Ltac here := solve [simpl; auto 20 using in_or_app, in_eq, in_cons].

Lemma subnets_then_vpc_safe (c : Client) (vpc_id : string)
    (subnets : list SubnetInfo) (pre : list Event) :
  no_vpc_deleted pre ->
  (forall s, listed_subnet pre s -> In s subnets) ->
  safe teardown_guard pre
    (for_each subnets (fun subnet =>
       let subnet_id := SubnetId subnet in
       call c (ec2.delete_tags [subnet_id]) ;;
       call c (ec2.delete_subnet subnet_id)) ;;
     call c (ec2.delete_tags [vpc_id]) ;;
     call c (ec2.delete_vpc vpc_id)).
Proof.
  intros Hno Hlisted. apply safe_bind.
  - apply safe_for_each with (J := no_vpc_deleted); [| | exact Hno].
    + intros pre' x HJ. cbn. split; [exact I |]. intros [].
      split; [| intros; exact I].
      intros e He. split_in He; [apply HJ, He | subst e; reflexivity].
    + intros pre' x t a HJ Ht. cbn in Ht.
      destruct Ht as ([] & t' & -> & [] & t'' & -> & -> & _).
      intros e He. split_in He; [apply HJ, He | |]; subst e; reflexivity.
  - intros t [] Ht. apply returns_subnet_loop in Ht. subst t. cbn.
    split; [exact I |]. intros []. split; [| intros; exact I].
    intros s (e & He & Hs). split_in He.
    + assert (Hin : In s subnets) by (apply Hlisted; exists e; auto).
      exists (Ev c (ec2.delete_subnet (SubnetId s)) (inr tt)).
      split; [| split; reflexivity].
      apply in_or_app. left. apply in_or_app. right.
      apply in_flat_map. exists s. simpl. auto.
    + apply in_flat_map in He.
      destruct He as (s' & _ & He). split_in He; subst e; contradiction.
    + subst e. contradiction.
Qed.

Lemma delete_vpc_resources_safe (region cidr_block : string) :
  safe teardown_guard [] (delete_vpc_resources region cidr_block).
Proof.
  unfold delete_vpc_resources, get_vpc_id, get_vpc_internet_gateway_id,
    get_public_route_table_info, get_subnets.
  set (c := boto3_client "ec2" region).
  cbn. split; [exact I |]. intros [vpcs]. cbn.
  destruct vpcs as [| vpc others]; cbn; [exact I |].
  split; [exact I |]. intros [igws]. cbn.
  destruct igws as [| igw igws]; cbn.
  - (* no gateway *)
    split; [exact I |]. intros [subnets]. cbn.
    apply subnets_then_vpc_safe.
    + intros e He. split_in He; subst e; reflexivity.
    + intros s (e & He & Hs). split_in He; subst e; simpl in Hs;
        solve [contradiction | exact Hs].
  - split; [exact I |]. intros [rtbs]. cbn.
    destruct rtbs as [| rtb rtbs]; cbn.
    + (* gateway, no route table *)
      split; [exact I |]. intros []. split; [exact I |]. intros [].
      split.
      { exists (VpcId vpc).
        exists (Ev c (ec2.detach_internet_gateway (InternetGatewayId igw)
                        (VpcId vpc)) (inr tt)).
        split; [here | split; reflexivity]. }
      intros []. split; [exact I |]. intros [subnets]. cbn.
      apply subnets_then_vpc_safe.
      * intros e He. split_in He; subst e; reflexivity.
      * intros s (e & He & Hs). split_in He; subst e; simpl in Hs;
          solve [contradiction | exact Hs].
    + (* gateway and route table *)
      do 2 apply safe_bind_assoc.
      apply safe_bind.
      { apply safe_for_each with (J := fun _ => True); auto.
        intros pre' x _. cbn. auto. }
      intros t [] Ht. apply returns_disassociate_loop in Ht. subst t.
      cbn. split; [exact I |]. intros []. split.
      { exists rtb. split; [| split; [reflexivity |]].
        - exists (Ev c (ec2.describe_route_tables
                           [mkFilter "route.gateway-id"
                              [InternetGatewayId igw]])
                      (inr {| RouteTables := rtb :: rtbs |})).
          split; [here | reflexivity].
        - intros a Ha.
          exists (Ev c (ec2.disassociate_route_table
                          (RouteTableAssociationId a)) (inr tt)).
          split; [| split; reflexivity].
          do 3 right. apply in_or_app. left.
          apply in_map_iff. exists a. auto. }
      intros []. split; [exact I |]. intros []. split; [exact I |].
      intros []. split.
      { exists (VpcId vpc).
        exists (Ev c (ec2.detach_internet_gateway (InternetGatewayId igw)
                        (VpcId vpc)) (inr tt)).
        split; [| split; reflexivity].
        do 3 right. apply in_or_app. right. here. }
      intros []. split; [exact I |]. intros [subnets]. cbn.
      apply subnets_then_vpc_safe.
      * intros e He. split_in He;
          try (apply in_map_iff in He; destruct He as (a & He & _));
          subst e; reflexivity.
      * intros s (e & He & Hs). split_in He;
          try (apply in_map_iff in He; destruct He as (a & He & _));
          subst e; simpl in Hs; solve [contradiction | exact Hs].
Qed.

(** ** Teardown *)

Section Teardown.
Variable World : Type.
Variable provider : Provider World.

(** C1.  In every run of [delete_vpc_resources], whatever the provider
    answers: [delete_route_table] is requested only for the route table
    the lookup picked and only after every association listed on it was
    disassociated; [delete_internet_gateway] is requested only after the
    same gateway was detached; and [delete_vpc] is requested only after
    every listed subnet was deleted, with no [delete_subnet] after it. *)
Theorem teardown_order (region cidr_block : string) (w : World) :
  let t := trace (run provider (delete_vpc_resources region cidr_block) w) in
  disassociated_before_delete t
  /\ detached_before_delete t
  /\ subnets_before_vpc t.
Proof.
  intro t.
  assert (Hguard : forall pre e post,
             t = pre ++ e :: post -> teardown_guard pre (ev_request e)).
  { intros pre e post H.
    apply (safe_sound teardown_guard provider _ [] w
             (delete_vpc_resources_safe region cidr_block) pre e post H). }
  split; [| split].
  - intros pre e post rtb_id Ht Hreq.
    specialize (Hguard pre e post Ht). rewrite Hreq in Hguard.
    exact Hguard.
  - intros pre e post igw_id Ht Hreq.
    specialize (Hguard pre e post Ht). rewrite Hreq in Hguard.
    exact Hguard.
  - intros pre e post vpc_id Ht Hreq. split.
    + specialize (Hguard pre e post Ht). rewrite Hreq in Hguard.
      exact Hguard.
    + intros e' subnet_id Hin Hreq'.
      destruct (in_split _ _ Hin) as (p1 & p2 & ->).
      assert (Ht' : t = (pre ++ e :: p1) ++ e' :: p2).
      { rewrite Ht, <- app_assoc. reflexivity. }
      specialize (Hguard _ _ _ Ht'). rewrite Hreq' in Hguard.
      simpl in Hguard.
      assert (He : In e (pre ++ e :: p1)) by (apply in_elt).
      specialize (Hguard e He). rewrite Hreq in Hguard. discriminate.
Qed.

(** The run of the subnet deletion loop: it only requests tag deletion
    and deletion of the given subnets, and when it returns it has done
    both for every subnet, in order. *)
Lemma run_subnet_loop (c : Client) (subnets : list SubnetInfo) (w : World) :
  let r := run provider
             (for_each subnets (fun subnet =>
                let subnet_id := SubnetId subnet in
                call c (ec2.delete_tags [subnet_id]) ;;
                call c (ec2.delete_subnet subnet_id))) w in
  (forall e, In e (trace r) ->
     exists s, In s subnets
               /\ (ev_request e = ec2.delete_tags [SubnetId s]
                   \/ ev_request e = ec2.delete_subnet (SubnetId s)))
  /\ (forall u, outcome r = Returned u ->
      requests (trace r)
      = flat_map (fun s => [ec2.delete_tags [SubnetId s];
                            ec2.delete_subnet (SubnetId s)]) subnets).
Proof.
  revert w.
  induction subnets as [| s rest IH]; intro w; simpl.
  - split; [intros e [] | reflexivity].
  - destruct (provider c (ec2.delete_tags [SubnetId s]) w)
      as [[err | []] w1]; simpl.
    { split; [| discriminate].
      intros e [<- | []]. exists s. simpl. auto. }
    destruct (provider c (ec2.delete_subnet (SubnetId s)) w1)
      as [[err | []] w2]; simpl.
    { split; [| discriminate].
      intros e [<- | [<- | []]]; exists s; simpl; auto. }
    destruct (IH w2) as [IH1 IH2]. split.
    + intros e [<- | [<- | He]]; [exists s; simpl; auto .. |].
      destruct (IH1 e He) as (s' & Hs' & Hreq). exists s'. auto.
    + intros u Hu. unfold requests in *. simpl.
      do 2 f_equal. exact (IH2 u Hu).
Qed.


(** C7.  Teardown of a VPC for which the lookups find no gateway and no
    subnet.  Every removal it requests is the deletion of the VPC's tags
    or of the VPC: no gateway, route table or subnet request is made.
    When the tag deletion does not raise, the requests are exactly the
    three lookups, the tag deletion and then the VPC deletion. *)
Theorem teardown_bare_vpc (region cidr_block : string) (w : World)
    (vpc : VpcInfo) (others : list VpcInfo) :
  let c := boto3_client "ec2" region in
  let vpc_id := VpcId vpc in
  let find_vpc := ec2.describe_vpcs [mkFilter "cidr" [cidr_block]] in
  let find_igw :=
    ec2.describe_internet_gateways [mkFilter "attachment.vpc-id" [vpc_id]] in
  let find_subnets := ec2.describe_subnets [mkFilter "vpc-id" [vpc_id]] in
  let w1 := after provider w c find_vpc in
  let w2 := after provider w1 c find_igw in
  let w3 := after provider w2 c find_subnets in
  let r := run provider (delete_vpc_resources region cidr_block) w in
  answer provider w c find_vpc = inr {| Vpcs := vpc :: others |} ->
  answer provider w1 c find_igw = inr {| InternetGateways := [] |} ->
  answer provider w2 c find_subnets = inr {| Subnets := [] |} ->
  (forall e, In e (trace r) ->
     is_removal (ev_request e) = true ->
     ev_request e = ec2.delete_tags [vpc_id]
     \/ ev_request e = ec2.delete_vpc vpc_id)
  /\ (forall u, answer provider w3 c (ec2.delete_tags [vpc_id]) = inr u ->
      requests (trace r)
      = [find_vpc; find_igw; find_subnets;
         ec2.delete_tags [vpc_id]; ec2.delete_vpc vpc_id]
      /\ filter is_removal (requests (trace r))
         = [ec2.delete_tags [vpc_id]; ec2.delete_vpc vpc_id]).
Proof.
  intros c vpc_id find_vpc find_igw find_subnets w1 w2 w3 r H1 H2 H3.
  apply answer_inr in H1. apply answer_inr in H2. apply answer_inr in H3.
  fold w1 in H1. fold w2 in H2. fold w3 in H3.
  subst r. unfold delete_vpc_resources, get_vpc_id,
    get_vpc_internet_gateway_id, get_subnets.
  fold c. fold find_vpc. simpl. rewrite H1. simpl.
  fold vpc_id. fold find_igw. rewrite H2. simpl.
  fold find_subnets. rewrite H3. simpl.
  destruct (provider c (ec2.delete_tags [vpc_id]) w3)
    as [[err | []] w4] eqn:H4; simpl.
  - split.
    + intros e He Hrem. split_in He; subst e; simpl in *;
        solve [discriminate | auto].
    + intros u Hu. unfold answer in Hu. rewrite H4 in Hu. discriminate.
  - destruct (provider c (ec2.delete_vpc vpc_id) w4)
      as [[err | []] w5]; simpl.
    + split.
      * intros e He Hrem. split_in He; subst e; simpl in *;
          solve [discriminate | auto].
      * intros _ _. split; reflexivity.
    + split.
      * intros e He Hrem. split_in He; subst e; simpl in *;
          solve [discriminate | auto].
      * intros _ _. split; reflexivity.
Qed.

(** Closes the case of a teardown that stopped at a failed request: the
    trace is then an explicit list of events. *)
Ltac aborted :=
  cbn [trace outcome prepend];
  split; [| split];
  [ let He := fresh "He" in
    intros ? He; split_in He; subst; reflexivity
  | let He := fresh "He" in
    let Hreq := fresh "Hreq" in
    intros ? ? He Hreq; split_in He; subst; cbn in Hreq;
    try discriminate; injection Hreq as <-; auto
  | discriminate ].

(** C10.  Teardown of a VPC for which the lookups find a gateway but no
    route table routing to it.  No route table is touched: there is no
    [disassociate_route_table] and no [delete_route_table] request, and
    tags are deleted only on the gateway, on listed subnets and on the
    VPC.  When the teardown returns, its requests were, in order: the
    three lookups, tag deletion, detachment and deletion of the gateway,
    the subnet lookup, tag deletion and deletion of every listed subnet,
    and last tag deletion and deletion of the VPC. *)
Theorem teardown_without_route_table (region cidr_block : string)
    (w : World) (vpc : VpcInfo) (others : list VpcInfo)
    (igw : InternetGatewayInfo) (igws : list InternetGatewayInfo) :
  let c := boto3_client "ec2" region in
  let vpc_id := VpcId vpc in
  let igw_id := InternetGatewayId igw in
  let find_vpc := ec2.describe_vpcs [mkFilter "cidr" [cidr_block]] in
  let find_igw :=
    ec2.describe_internet_gateways [mkFilter "attachment.vpc-id" [vpc_id]] in
  let find_rtb :=
    ec2.describe_route_tables [mkFilter "route.gateway-id" [igw_id]] in
  let find_subnets := ec2.describe_subnets [mkFilter "vpc-id" [vpc_id]] in
  let w1 := after provider w c find_vpc in
  let w2 := after provider w1 c find_igw in
  let w3 := after provider w2 c find_rtb in
  let w4 := after provider w3 c (ec2.delete_tags [igw_id]) in
  let w5 := after provider w4 c
              (ec2.detach_internet_gateway igw_id vpc_id) in
  let w6 := after provider w5 c (ec2.delete_internet_gateway igw_id) in
  let r := run provider (delete_vpc_resources region cidr_block) w in
  answer provider w c find_vpc = inr {| Vpcs := vpc :: others |} ->
  answer provider w1 c find_igw
  = inr {| InternetGateways := igw :: igws |} ->
  answer provider w2 c find_rtb = inr {| RouteTables := [] |} ->
  (forall e, In e (trace r) -> is_route_table_change (ev_request e) = false)
  /\ (forall e ids,
        In e (trace r) -> ev_request e = ec2.delete_tags ids ->
        ids = [igw_id] \/ ids = [vpc_id]
        \/ exists s, listed_subnet (trace r) s /\ ids = [SubnetId s])
  /\ (outcome r = Returned tt ->
      exists resp,
        answer provider w6 c find_subnets = inr resp
        /\ requests (trace r)
           = [find_vpc; find_igw; find_rtb;
              ec2.delete_tags [igw_id];
              ec2.detach_internet_gateway igw_id vpc_id;
              ec2.delete_internet_gateway igw_id;
              find_subnets]
             ++ flat_map (fun s => [ec2.delete_tags [SubnetId s];
                                    ec2.delete_subnet (SubnetId s)])
                         (Subnets resp)
             ++ [ec2.delete_tags [vpc_id]; ec2.delete_vpc vpc_id]).
Proof.
  intros c vpc_id igw_id find_vpc find_igw find_rtb find_subnets
         w1 w2 w3 w4 w5 w6 r H1 H2 H3.
  subst r. unfold delete_vpc_resources, get_vpc_id,
    get_vpc_internet_gateway_id, get_public_route_table_info, get_subnets.
  fold c. cbn [bind call]. fold find_vpc.
  rewrite run_call_step, H1. cbn [Vpcs bind when_some VpcId].
  fold vpc_id. fold find_igw. fold w1.
  rewrite run_call_step, H2.
  cbn [InternetGateways bind when_some InternetGatewayId].
  fold igw_id. fold find_rtb. fold w2.
  rewrite run_call_step, H3. cbn [RouteTables bind when_some]. fold w3.
  (* the gateway: tags, detach, delete *)
  rewrite run_call_step. fold w4.
  destruct (answer provider w3 c (ec2.delete_tags [igw_id]))
    as [err | []] eqn:H4; [aborted |].
  rewrite run_call_step. fold w5.
  destruct (answer provider w4 c (ec2.detach_internet_gateway igw_id vpc_id))
    as [err | []] eqn:H5; [aborted |].
  cbn [bind call]. rewrite run_call_step. fold w6.
  destruct (answer provider w5 c (ec2.delete_internet_gateway igw_id))
    as [err | []] eqn:H6; [aborted |].
  (* the subnets *)
  fold find_subnets. rewrite run_call_step.
  destruct (answer provider w6 c find_subnets) as [err | resp] eqn:H7;
    [aborted |].
  rewrite run_bind.
  pose proof (run_subnet_loop c (Subnets resp)
                (after provider w6 c find_subnets)) as HL.
  cbn zeta in HL. cbn [bind call] in HL.
  set (L := run provider _ (after provider w6 c find_subnets)) in *.
  destruct HL as [L1 L2].
  unfold and_then.
  assert (Hlisted : forall (rest : list Event) s,
             In s (Subnets resp) ->
             listed_subnet
               (Ev c find_vpc (inr {| Vpcs := vpc :: others |})
                :: Ev c find_igw
                     (inr {| InternetGateways := igw :: igws |})
                :: Ev c find_rtb (inr {| RouteTables := [] |})
                :: Ev c (ec2.delete_tags [igw_id]) (inr tt)
                :: Ev c (ec2.detach_internet_gateway igw_id vpc_id) (inr tt)
                :: Ev c (ec2.delete_internet_gateway igw_id) (inr tt)
                :: Ev c find_subnets (inr resp) :: rest) s).
  { intros rest s Hs. exists (Ev c find_subnets (inr resp)).
    split; [do 6 right; left; reflexivity | exact Hs]. }
  destruct (outcome L) as [[] | err] eqn:HL.
  - (* the loop returned: tags of the VPC, then the VPC *)
    rewrite run_call_step.
    destruct (answer provider (world L) c (ec2.delete_tags [vpc_id]))
      as [err | []] eqn:H8.
    { cbn [trace outcome prepend]. split; [| split].
      - intros e He. split_in He; try (subst e; reflexivity).
        destruct (L1 _ He) as (s & _ & [Hr | Hr]); rewrite Hr; reflexivity.
      - intros e ids He Hreq. split_in He;
          try (subst e; cbn in Hreq; try discriminate;
               injection Hreq as <-; solve [auto]).
        destruct (L1 _ He) as (s & Hs & [Hr | Hr]); rewrite Hreq in Hr;
          [| discriminate].
        injection Hr as ->. right. right. exists s. auto.
      - discriminate. }
    unfold call. rewrite run_call_step.
    destruct (answer provider _ c (ec2.delete_vpc vpc_id))
      as [err | []] eqn:H9.
    { cbn [trace outcome prepend]. split; [| split].
      - intros e He. split_in He; try (subst e; reflexivity).
        destruct (L1 _ He) as (s & _ & [Hr | Hr]); rewrite Hr; reflexivity.
      - intros e ids He Hreq. split_in He;
          try (subst e; cbn in Hreq; try discriminate;
               injection Hreq as <-; solve [auto]).
        destruct (L1 _ He) as (s & Hs & [Hr | Hr]); rewrite Hreq in Hr;
          [| discriminate].
        injection Hr as ->. right. right. exists s. auto.
      - discriminate. }
    cbn [run trace outcome prepend]. split; [| split].
    + intros e He. split_in He; try (subst e; reflexivity).
      destruct (L1 _ He) as (s & _ & [Hr | Hr]); rewrite Hr; reflexivity.
    + intros e ids He Hreq. split_in He;
        try (subst e; cbn in Hreq; try discriminate;
             injection Hreq as <-; solve [auto]).
      destruct (L1 _ He) as (s & Hs & [Hr | Hr]); rewrite Hreq in Hr;
        [| discriminate].
      injection Hr as ->. right. right. exists s. auto.
    + intros _. exists resp. split; [reflexivity |].
      unfold requests in *. cbn [map ev_request app].
      rewrite map_app, (L2 tt eq_refl). reflexivity.
  - (* the loop stopped at a failed request *)
    cbn [trace outcome prepend]. split; [| split].
    + intros e He. split_in He; try (subst e; reflexivity).
      destruct (L1 _ He) as (s & _ & [Hr | Hr]); rewrite Hr; reflexivity.
    + intros e ids He Hreq. split_in He;
        try (subst e; cbn in Hreq; try discriminate;
             injection Hreq as <-; solve [auto]).
      destruct (L1 _ He) as (s & Hs & [Hr | Hr]); rewrite Hreq in Hr;
        [| discriminate].
      injection Hr as ->. right. right. exists s. auto.
    + discriminate.
Qed.
End Teardown.

(** ** Concrete runs against the test double *)

Lemma lookup_absent_returns_none_witness :
  outcome (run Fake.provider (get_vpc_id "us-west-1" "10.1.0.0/16")
             Fake.empty) = Returned None
  /\ outcome (run Fake.provider
                (get_vpc_internet_gateway_id "us-west-1" "vpc-0")
                Fake.empty) = Returned None
  /\ outcome (run Fake.provider
                (get_public_route_table_info "us-west-1" "igw-1")
                Fake.empty) = Returned None.
Proof.
  split; [| split].
  - destruct (lookup_absent_returns_none Fake.provider
                "us-west-1" "10.1.0.0/16" Fake.empty) as [[H _] _].
    apply (H {| Vpcs := [] |}); reflexivity.
  - destruct (lookup_absent_returns_none Fake.provider
                "us-west-1" "vpc-0" Fake.empty) as [_ [[H _] _]].
    apply (H {| InternetGateways := [] |}); reflexivity.
  - destruct (lookup_absent_returns_none Fake.provider
                "us-west-1" "igw-1" Fake.empty) as [_ [_ [H _]]].
    apply (H {| RouteTables := [] |}); reflexivity.
Defined.

Lemma lookup_many_returns_first_witness :
  outcome (run Fake.provider (get_vpc_id "us-west-1" "10.1.0.0/16")
             Fake.duplicated) = Returned (Some "vpc-0")
  /\ outcome (run Fake.provider
                (get_vpc_internet_gateway_id "us-west-1" "vpc-0")
                Fake.duplicated) = Returned (Some "igw-2")
  /\ outcome (run Fake.provider
                (get_public_route_table_info "us-west-1" "igw-2")
                Fake.duplicated) = Returned (Some (mkRtb "rtb-4" [])).
Proof.
  split; [| split].
  - destruct (lookup_many_returns_first Fake.provider
                "us-west-1" "10.1.0.0/16" Fake.duplicated) as [H _].
    apply (H (mkVpc "vpc-0" "10.1.0.0/16") (mkVpc "vpc-1" "10.1.0.0/16") []).
    reflexivity.
  - destruct (lookup_many_returns_first Fake.provider
                "us-west-1" "vpc-0" Fake.duplicated) as [_ [H _]].
    apply (H (mkIgw "igw-2") (mkIgw "igw-3") []). reflexivity.
  - destruct (lookup_many_returns_first Fake.provider
                "us-west-1" "igw-2" Fake.duplicated) as [_ [_ H]].
    apply (H (mkRtb "rtb-4" []) (mkRtb "rtb-5" []) []). reflexivity.
Defined.

Lemma create_route_false_raises_untagged_witness :
  let r := run Fake.provider
             (create_public_route_table "us-west-1" "vpc-0" "igw-1"
                (Some "rtb-boto3-public")) Fake.route_refused in
  outcome r = Raised CreateRouteError
  /\ (forall e, In e (trace r) -> is_create_tags (ev_request e) = false)
  /\ requests (trace r)
     = [ec2.create_route_table "vpc-0";
        ec2.create_route "rtb-0" "0.0.0.0/0" "igw-1"].
Proof.
  apply (@create_route_false_raises_untagged Fake.Cloud Fake.provider
           "us-west-1" "vpc-0" "igw-1" (Some "rtb-boto3-public")
           Fake.route_refused
           {| RouteTable := mkRtb "rtb-0" [] |} {| Return := false |});
    reflexivity.
Defined.




Lemma associate_public_route_success_witness :
  let c := boto3_client "ec2" "us-west-1" in
  let r := run Fake.provider
             (associate_public_route "us-west-1" "rtb-2" "subnet-5")
             Fake.provisioned in
  (exists association,
      trace r
      = [Ev c (ec2.associate_route_table "rtb-2" "subnet-5")
            (inr association);
         Ev c (ec2.modify_subnet_attribute "subnet-5"
                 (MapPublicIpOnLaunch true)) (inr tt)]
      /\ "rtbassoc-6" = AssociationId association)
  /\ done_in (trace r) (ec2.associate_route_table "rtb-2" "subnet-5")
  /\ done_in (trace r)
       (ec2.modify_subnet_attribute "subnet-5" (MapPublicIpOnLaunch true)).
Proof.
  apply (@associate_public_route_success Fake.Cloud Fake.provider
           "us-west-1" "rtb-2" "subnet-5" Fake.provisioned "rtbassoc-6").
  reflexivity.
Defined.

Lemma create_vpc_success_witness :
  let c := boto3_client "ec2" "us-west-1" in
  let r := run Fake.provider
             (create_vpc "us-west-1" "10.1.0.0/16" (Some "vpc-boto3") true)
             Fake.empty in
  let waiter := ec2.wait "vpc_available" ["vpc-0"] in
  let modify := ec2.modify_vpc_attribute "vpc-0" (EnableDnsHostnames true) in
  count is_modify_vpc_attribute (trace r) = 1
  /\ done_in (trace r) modify
  /\ count is_wait (trace r) = 1
  /\ done_in (trace r) waiter
  /\ preceded_by (trace r) waiter modify.
Proof.
  intros c r waiter modify.
  destruct (@create_vpc_success Fake.Cloud Fake.provider
              "us-west-1" "10.1.0.0/16" (Some "vpc-boto3") true Fake.empty
              {| Vpc := mkVpc "vpc-0" "10.1.0.0/16" |} eq_refl)
    as (_ & Hcount & Hdone & Hwait).
  destruct (Hwait eq_refl) as (Hw1 & Hw2 & Hw3).
  repeat split; assumption.
Defined.

(** The teardown of the fully provisioned example, split at its three
    deletions: the route table (sixth request), the gateway (ninth) and the
    VPC (last). *)
Lemma teardown_order_witness :
  let t := trace (run Fake.provider
                    (delete_vpc_resources "us-west-1" "10.1.0.0/16")
                    Fake.provisioned) in
  (exists rtb,
      found_table (firstn 5 t) rtb /\ RouteTableId rtb = "rtb-2"
      /\ forall a, In a (Associations rtb) ->
           done_in (firstn 5 t)
             (ec2.disassociate_route_table (RouteTableAssociationId a)))
  /\ (exists vpc_id,
         done_in (firstn 8 t) (ec2.detach_internet_gateway "igw-1" vpc_id))
  /\ (forall s, listed_subnet (firstn 15 t) s ->
                done_in (firstn 15 t) (ec2.delete_subnet (SubnetId s))).
Proof.
  intro t.
  destruct (@teardown_order Fake.Cloud Fake.provider
              "us-west-1" "10.1.0.0/16" Fake.provisioned)
    as (Htable & Hgateway & Hvpc).
  split; [| split].
  - refine (Htable (firstn 5 t)
              (Ev (boto3_client "ec2" "us-west-1")
                  (ec2.delete_route_table "rtb-2") (inr tt))
              (skipn 6 t) "rtb-2" _ _); vm_compute; reflexivity.
  - refine (Hgateway (firstn 8 t)
              (Ev (boto3_client "ec2" "us-west-1")
                  (ec2.delete_internet_gateway "igw-1") (inr tt))
              (skipn 9 t) "igw-1" _ _); vm_compute; reflexivity.
  - refine (proj1 (Hvpc (firstn 15 t)
                     (Ev (boto3_client "ec2" "us-west-1")
                         (ec2.delete_vpc "vpc-0") (inr tt))
                     [] "vpc-0" _ _)); vm_compute; reflexivity.
Defined.


Lemma teardown_bare_vpc_witness :
  let r := run Fake.provider
             (delete_vpc_resources "us-west-1" "10.1.0.0/16")
             Fake.bare_vpc in
  (forall e, In e (trace r) ->
     is_removal (ev_request e) = true ->
     ev_request e = ec2.delete_tags ["vpc-0"]
     \/ ev_request e = ec2.delete_vpc "vpc-0")
  /\ filter is_removal (requests (trace r))
     = [ec2.delete_tags ["vpc-0"]; ec2.delete_vpc "vpc-0"].
Proof.
  intro r.
  destruct (@teardown_bare_vpc Fake.Cloud Fake.provider
              "us-west-1" "10.1.0.0/16" Fake.bare_vpc
              (mkVpc "vpc-0" "10.1.0.0/16") [] eq_refl eq_refl eq_refl)
    as [Honly Hboth].
  split; [exact Honly |].
  destruct (Hboth tt eq_refl) as [_ H]. exact H.
Defined.

Lemma teardown_without_route_table_witness :
  let r := run Fake.provider
             (delete_vpc_resources "us-west-1" "10.1.0.0/16")
             Fake.no_route_table in
  (forall e, In e (trace r) -> is_route_table_change (ev_request e) = false)
  /\ exists resp,
       requests (trace r)
       = [ec2.describe_vpcs [mkFilter "cidr" ["10.1.0.0/16"]];
          ec2.describe_internet_gateways
            [mkFilter "attachment.vpc-id" ["vpc-0"]];
          ec2.describe_route_tables [mkFilter "route.gateway-id" ["igw-1"]];
          ec2.delete_tags ["igw-1"];
          ec2.detach_internet_gateway "igw-1" "vpc-0";
          ec2.delete_internet_gateway "igw-1";
          ec2.describe_subnets [mkFilter "vpc-id" ["vpc-0"]]]
         ++ flat_map (fun s => [ec2.delete_tags [SubnetId s];
                                ec2.delete_subnet (SubnetId s)])
                     (Subnets resp)
         ++ [ec2.delete_tags ["vpc-0"]; ec2.delete_vpc "vpc-0"].
Proof.
  intro r.
  destruct (@teardown_without_route_table Fake.Cloud Fake.provider
              "us-west-1" "10.1.0.0/16" Fake.no_route_table
              (mkVpc "vpc-0" "10.1.0.0/16") [] (mkIgw "igw-1") []
              eq_refl eq_refl eq_refl)
    as (Hnone & _ & Hall).
  split; [exact Hnone |].
  destruct (Hall eq_refl) as (resp & _ & H).
  exists resp. exact H.
Defined.

(** ** Paths of runs, requests of trees *)

Section TreeFacts.
Variable World : Type.
Variable provider : Provider World.

(** A run that returns followed a successful path of the tree. *)
Lemma run_returns (A : Type) (p : py A) (w : World) (a : A) :
outcome (run provider p w) = Returned a ->
returns p (trace (run provider p w)) a.
Proof.
revert w.
induction p as [a' | e | c r k IH]; intro w; simpl.
- intro H. injection H as ->. auto.
- discriminate.
- destruct (provider c r w) as [[e | x] w']; simpl; [discriminate |].
  intro H. exists x, (trace (run provider (k x) w')). auto.
Qed.

Lemma calls_satisfy_sound (A : Type) (P : Client -> ec2.request -> Prop)
  (p : py A) (w : World) :
calls_satisfy P p ->
forall e, In e (trace (run provider p w)) ->
          P (ev_client e) (ev_request e).
Proof.
revert w.
induction p as [a | err | c r k IH]; intros w Hp e; simpl.
- intros [].
- intros [].
- destruct Hp as [Hc Hk].
  destruct (provider c r w) as [[err | x] w']; simpl.
  + intros [<- | []]. exact Hc.
  + intros [<- | He]; [exact Hc |]. exact (IH x w' (Hk x) e He).
Qed.

(** A run stops at the first request that fails: an event followed by
  another one was answered without error. *)
Lemma run_stops_at_failure (A : Type) (p : py A) (w : World) :
forall pre e e' post,
  trace (run provider p w) = pre ++ e :: e' :: post -> ev_ok e = true.
Proof.
revert w.
induction p as [a | err | c r k IH]; intros w pre e e' post; simpl.
- intro H. destruct pre; discriminate.
- intro H. destruct pre; discriminate.
- destruct (provider c r w) as [[err | x] w']; simpl; intro H.
  + destruct pre as [| e0 [| e1 pre]]; discriminate.
  + destruct pre as [| e0 pre]; simpl in H.
    * injection H as <- _. reflexivity.
    * injection H as _ H. exact (IH x w' pre e e' post H).
Qed.

(** A tree without a [raise] of its own raises only the error of its last
  request, and returns only when no request failed. *)
Lemma never_raises_sound (A : Type) (p : py A) (w : World) :
never_raises p ->
(forall err, outcome (run provider p w) = Raised err ->
   exists pre e,
     trace (run provider p w) = pre ++ [e]
     /\ ev_error e = Some err
     /\ forall e', In e' pre -> ev_ok e' = true)
/\ (forall a, outcome (run provider p w) = Returned a ->
      forall e, In e (trace (run provider p w)) -> ev_ok e = true).
Proof.
revert w.
induction p as [a | err0 | c r k IH]; intros w Hp; simpl.
- split; [discriminate | intros _ _ e []].
- contradiction.
- simpl in Hp.
  destruct (provider c r w) as [[err0 | x] w']; simpl.
  + split; [| discriminate].
    intros err H. injection H as ->.
    exists [], (Ev c r (inl err)). simpl. intuition.
  + destruct (IH x w' (Hp x)) as [IH1 IH2]. split.
    * intros err H. destruct (IH1 err H) as (pre & e & Ht & He & Hok).
      exists (Ev c r (inr x) :: pre), e. rewrite Ht. simpl.
      split; [reflexivity |]. split; [exact He |].
      intros e' [<- | He']; [reflexivity | auto].
    * intros a H e [<- | He]; [reflexivity |]. exact (IH2 a H e He).
Qed.
End TreeFacts.

Lemma calls_satisfy_bind (A B : Type) (P : Client -> ec2.request -> Prop)
    (p : py A) (f : A -> py B) :
  calls_satisfy P p -> (forall a, calls_satisfy P (f a)) ->
  calls_satisfy P (bind p f).
Proof.
  intros Hp Hf.
  induction p as [a | e | c r k IH]; simpl in *; auto.
  destruct Hp as [Hc Hk]. split; auto.
Qed.

Lemma calls_satisfy_for_each (X : Type) (P : Client -> ec2.request -> Prop)
    (xs : list X) (body : X -> py unit) :
  (forall x, calls_satisfy P (body x)) ->
  calls_satisfy P (for_each xs body).
Proof.
  intro Hbody. induction xs as [| x rest IH]; simpl; [exact I |].
  apply calls_satisfy_bind; auto.
Qed.

Lemma never_raises_bind (A B : Type) (p : py A) (f : A -> py B) :
  never_raises p -> (forall a, never_raises (f a)) ->
  never_raises (bind p f).
Proof.
  intros Hp Hf.
  induction p as [a | e | c r k IH]; simpl in *; auto.
Qed.

Lemma never_raises_for_each (X : Type) (xs : list X) (body : X -> py unit) :
  (forall x, never_raises (body x)) ->
  never_raises (for_each xs body).
Proof.
  intro Hbody. induction xs as [| x rest IH]; simpl; [exact I |].
  apply never_raises_bind; auto.
Qed.

(** ** Provisioning: what each step requests *)

Section ProvisioningRuns.
Variable World : Type.
Variable provider : Provider World.

(** X1.  A [create_internet_gateway] that returns made these requests and
  no other, all answered without error: [create_internet_gateway],
  [create_tags] on the new gateway when a name is given, and last
  [attach_internet_gateway] of the new gateway to the given VPC. *)
Theorem create_internet_gateway_success
  (region vpc_id : string) (igw_name : option string) (w : World)
  (igw : CreateInternetGatewayResponse) :
let c := boto3_client "ec2" region in
let r := run provider (create_internet_gateway region vpc_id igw_name) w in
let igw_id := InternetGatewayId (InternetGateway igw) in
outcome r = Returned igw ->
trace r
= Ev c ec2.create_internet_gateway (inr igw)
  :: match igw_name with
     | Some name => [Ev c (ec2.create_tags [igw_id] (name_tag name))
                        (inr tt)]
     | None => []
     end
  ++ [Ev c (ec2.attach_internet_gateway igw_id vpc_id) (inr tt)].
Proof.
intros c r igw_id H. apply run_returns in H.
fold r in H. set (t := trace r) in *. clearbody t. clear r.
unfold create_internet_gateway in H. fold c in H.
destruct igw_name as [name |]; cbn in H.
- destruct H as (igw' & t1 & -> & [] & t2 & -> & [] & t3 & -> & -> & ->).
  reflexivity.
- destruct H as (igw' & t1 & -> & [] & t2 & -> & -> & ->).
  reflexivity.
Qed.

(** X2.  When tagging the new gateway fails, [create_internet_gateway]
  raises that error at once: the gateway was created but no request
  attaches it, and none removes it. *)
Theorem create_internet_gateway_tag_failure
  (region vpc_id name : string) (w : World)
  (igw : CreateInternetGatewayResponse) (err : ClientError) :
let c := boto3_client "ec2" region in
let igw_id := InternetGatewayId (InternetGateway igw) in
let r := run provider (create_internet_gateway region vpc_id (Some name)) w in
answer provider w c ec2.create_internet_gateway = inr igw ->
answer provider (after provider w c ec2.create_internet_gateway) c
  (ec2.create_tags [igw_id] (name_tag name)) = inl err ->
outcome r = Raised err
/\ trace r
   = [Ev c ec2.create_internet_gateway (inr igw);
      Ev c (ec2.create_tags [igw_id] (name_tag name)) (inl err)]
/\ count is_attach (trace r) = 0
/\ count is_removal (trace r) = 0.
Proof.
intros c igw_id r H1 H2. subst r.
unfold create_internet_gateway. fold c. cbn [bind call when_some].
rewrite run_call_step, H1. fold igw_id.
rewrite run_call_step, H2.
cbn. auto.
Qed.

(** X3.  When the waiter fails, [create_vpc] raises that error at once:
  the VPC was created, but it is not tagged and DNS hostnames are not
  enabled on it. *)
Theorem create_vpc_wait_failure
  (region cidr_block : string) (vpc_name : option string) (w : World)
  (vpc : CreateVpcResponse) (err : ClientError) :
let c := boto3_client "ec2" region in
let vpc_id := VpcId (Vpc vpc) in
let r := run provider (create_vpc region cidr_block vpc_name true) w in
answer provider w c (ec2.create_vpc cidr_block) = inr vpc ->
answer provider (after provider w c (ec2.create_vpc cidr_block)) c
  (ec2.wait "vpc_available" [vpc_id]) = inl err ->
outcome r = Raised err
/\ trace r
   = [Ev c (ec2.create_vpc cidr_block) (inr vpc);
      Ev c (ec2.wait "vpc_available" [vpc_id]) (inl err)]
/\ count is_create_tags (trace r) = 0
/\ count is_modify_vpc_attribute (trace r) = 0.
Proof.
intros c vpc_id r H1 H2. subst r.
unfold create_vpc. fold c. cbn [bind call when].
rewrite run_call_step, H1. fold vpc_id.
rewrite run_call_step, H2.
cbn. auto.
Qed.

(** X4.  A [create_public_route_table] that returns made these requests
  and no other: [create_route_table] in the given VPC, one
  [create_route] from [0.0.0.0/0] to the given gateway in the new table,
  answered with a true flag, and [create_tags] on the table when a name
  is given. *)
Theorem create_public_route_table_success
  (region vpc_id igw_id : string) (rtb_name : option string) (w : World)
  (rtb : CreateRouteTableResponse) :
let c := boto3_client "ec2" region in
let r := run provider
           (create_public_route_table region vpc_id igw_id rtb_name) w in
let rtb_id := RouteTableId (RouteTable rtb) in
outcome r = Returned rtb ->
trace r
= Ev c (ec2.create_route_table vpc_id) (inr rtb)
  :: Ev c (ec2.create_route rtb_id "0.0.0.0/0" igw_id)
        (inr {| Return := true |})
  :: match rtb_name with
     | Some name => [Ev c (ec2.create_tags [rtb_id] (name_tag name))
                        (inr tt)]
     | None => []
     end.
Proof.
intros c r rtb_id H. apply run_returns in H.
fold r in H. set (t := trace r) in *. clearbody t. clear r.
unfold create_public_route_table in H. fold c in H. cbn in H.
destruct H as (rtb' & t1 & -> & [[|]] & t2 & -> & H); cbn in H;
  [| contradiction].
destruct rtb_name as [name |]; cbn in H.
- destruct H as ([] & t3 & -> & -> & ->). reflexivity.
- destruct H as (-> & ->). reflexivity.
Qed.

(** X5.  A [create_subnet] that returns made [create_subnet] in the given
  VPC and block and, when a name is given, [create_tags] on the new
  subnet: nothing else.  In every run, failing or not, it requests no
  route table association and no attribute change: the subnet stays
  private. *)
Theorem create_subnet_private
  (region vpc_id subnet_cidr_block : string) (subnet_name : option string)
  (w : World) :
let c := boto3_client "ec2" region in
let r := run provider
           (create_subnet region vpc_id subnet_cidr_block subnet_name) w in
(forall e, In e (trace r) -> is_publishing (ev_request e) = false)
/\ forall subnet,
     outcome r = Returned subnet ->
     trace r
     = Ev c (ec2.create_subnet vpc_id subnet_cidr_block) (inr subnet)
       :: match subnet_name with
          | Some name =>
              [Ev c (ec2.create_tags [SubnetId (Subnet subnet)]
                       (name_tag name)) (inr tt)]
          | None => []
          end.
Proof.
intros c r. split.
- intros e He.
  apply (calls_satisfy_sound provider
           (fun _ req => is_publishing req = false)
           (create_subnet region vpc_id subnet_cidr_block subnet_name) w);
    [| exact He].
  unfold create_subnet. cbn. split; [reflexivity |]. intro x.
  destruct subnet_name; cbn; auto.
- intros subnet H. apply run_returns in H.
  fold r in H. set (t := trace r) in *. clearbody t. clear r.
  unfold create_subnet in H. fold c in H. cbn in H.
  destruct H as (subnet' & t1 & -> & H).
  destruct subnet_name as [name |]; cbn in H.
  + destruct H as ([] & t2 & -> & -> & ->). reflexivity.
  + destruct H as (-> & ->). reflexivity.
Qed.

(** X6.  When the association succeeds and setting the public IP flag
  fails, [associate_public_route] raises that error: the association
  stays in place (no request undoes it) and its id is not returned. *)
Theorem associate_public_route_flag_failure
  (region rtb_id subnet_id : string) (w : World)
  (association : AssociateRouteTableResponse) (err : ClientError) :
let c := boto3_client "ec2" region in
let r := run provider (associate_public_route region rtb_id subnet_id) w in
answer provider w c (ec2.associate_route_table rtb_id subnet_id)
= inr association ->
answer provider
  (after provider w c (ec2.associate_route_table rtb_id subnet_id)) c
  (ec2.modify_subnet_attribute subnet_id (MapPublicIpOnLaunch true))
= inl err ->
outcome r = Raised err
/\ trace r
   = [Ev c (ec2.associate_route_table rtb_id subnet_id) (inr association);
      Ev c (ec2.modify_subnet_attribute subnet_id
              (MapPublicIpOnLaunch true)) (inl err)]
/\ done_in (trace r) (ec2.associate_route_table rtb_id subnet_id)
/\ count is_removal (trace r) = 0.
Proof.
intros c r H1 H2. subst r.
unfold associate_public_route. fold c. cbn [bind call].
rewrite run_call_step, H1. rewrite run_call_step, H2.
cbn. split; [reflexivity |]. split; [reflexivity |]. split; [| reflexivity].
eexists. split; [left; reflexivity |]. split; reflexivity.
Qed.
End ProvisioningRuns.

(** ** What the functions never request *)

(** Closes [calls_satisfy] goals on the script's trees; [HP] proves the
    property of each request. *)
Ltac walk HP :=
  repeat first
    [ exact I
    | progress cbn
    | split
    | intro
    | solve [apply HP; repeat split; reflexivity]
    | match goal with
      | |- context [match ?l with _ => _ end] => destruct l
      end
    | apply calls_satisfy_bind
    | apply calls_satisfy_for_each ].

Lemma provisioning_calls (P : Client -> ec2.request -> Prop) (region : string) :
  (forall r, is_removal r = false -> is_describe r = false ->
             P (boto3_client "ec2" region) r) ->
  (forall cidr_block vpc_name wait,
      calls_satisfy P (create_vpc region cidr_block vpc_name wait))
  /\ (forall vpc_id igw_name,
         calls_satisfy P (create_internet_gateway region vpc_id igw_name))
  /\ (forall vpc_id igw_id rtb_name,
         calls_satisfy P
           (create_public_route_table region vpc_id igw_id rtb_name))
  /\ (forall vpc_id subnet_cidr_block subnet_name,
         calls_satisfy P
           (create_subnet region vpc_id subnet_cidr_block subnet_name))
  /\ (forall rtb_id subnet_id,
         calls_satisfy P (associate_public_route region rtb_id subnet_id)).
Proof.
  intro HP.
  assert (HP' : forall r, is_removal r = false /\ is_describe r = false ->
                          P (boto3_client "ec2" region) r)
    by (intros r [H1 H2]; auto).
  repeat split; intros;
    unfold create_vpc, create_internet_gateway, create_public_route_table,
      create_subnet, associate_public_route, when, when_some;
    walk HP'.
Qed.

Lemma lookup_calls (P : Client -> ec2.request -> Prop) (region : string) :
  (forall r, is_describe r = true -> P (boto3_client "ec2" region) r) ->
  (forall cidr_block, calls_satisfy P (get_vpc_id region cidr_block))
  /\ (forall vpc_id,
         calls_satisfy P (get_vpc_internet_gateway_id region vpc_id))
  /\ (forall igw_id,
         calls_satisfy P (get_public_route_table_info region igw_id))
  /\ (forall vpc_id, calls_satisfy P (get_subnets region vpc_id)).
Proof.
  intro HP.
  repeat split; intros;
    unfold get_vpc_id, get_vpc_internet_gateway_id,
      get_public_route_table_info, get_subnets;
    walk HP.
Qed.

Lemma teardown_calls (P : Client -> ec2.request -> Prop)
    (region cidr_block : string) :
  (forall r, is_describe r || is_removal r = true ->
             P (boto3_client "ec2" region) r) ->
  calls_satisfy P (delete_vpc_resources region cidr_block).
Proof.
  intro HP.
  unfold delete_vpc_resources, get_vpc_id, get_vpc_internet_gateway_id,
    get_public_route_table_info, get_subnets, when_some.
  walk HP.
Qed.

Section NeverRequested.
Variable World : Type.
Variable provider : Provider World.

(** X7.  No provisioning function ever requests a removal, in any run: a
  step that fails leaves what it created in place.  This holds for
  [create_vpc], [create_internet_gateway], [create_public_route_table],
  [create_subnet] and [associate_public_route]. *)
Theorem provisioning_never_removes (region : string) (w : World) :
(forall cidr_block vpc_name wait e,
    In e (trace (run provider
                   (create_vpc region cidr_block vpc_name wait) w)) ->
    is_removal (ev_request e) = false)
/\ (forall vpc_id igw_name e,
       In e (trace (run provider
                      (create_internet_gateway region vpc_id igw_name) w)) ->
       is_removal (ev_request e) = false)
/\ (forall vpc_id igw_id rtb_name e,
       In e (trace (run provider
                      (create_public_route_table region vpc_id igw_id
                         rtb_name) w)) ->
       is_removal (ev_request e) = false)
/\ (forall vpc_id subnet_cidr_block subnet_name e,
       In e (trace (run provider
                      (create_subnet region vpc_id subnet_cidr_block
                         subnet_name) w)) ->
       is_removal (ev_request e) = false)
/\ (forall rtb_id subnet_id e,
       In e (trace (run provider
                      (associate_public_route region rtb_id subnet_id) w)) ->
       is_removal (ev_request e) = false).
Proof.
destruct (provisioning_calls
            (fun _ r => is_removal r = false) region)
  as (H1 & H2 & H3 & H4 & H5); [auto |].
repeat split; intros;
  match goal with
  | He : In ?e (trace (run provider ?p w)) |- _ =>
      apply (calls_satisfy_sound provider
               (fun _ r => is_removal r = false) p w); auto
  end.
Qed.

(** X8.  The lookup helpers only read: in any run each of [get_vpc_id],
  [get_vpc_internet_gateway_id], [get_public_route_table_info] and
  [get_subnets] makes exactly one request, and it is a describe. *)
Theorem lookups_read_only (region key : string) (w : World) :
let one (t : list Event) :=
  length t = 1 /\ forall e, In e t -> is_describe (ev_request e) = true in
one (trace (run provider (get_vpc_id region key) w))
/\ one (trace (run provider (get_vpc_internet_gateway_id region key) w))
/\ one (trace (run provider (get_public_route_table_info region key) w))
/\ one (trace (run provider (get_subnets region key) w)).
Proof.
intro one. subst one. cbv beta.
rewrite get_vpc_id_run, get_vpc_internet_gateway_id_run,
  get_public_route_table_info_run, get_subnets_run.
repeat split;
  try (destruct (answer provider w _ _); reflexivity);
  intros e He; destruct (answer provider w _ _); simpl in He;
  destruct He as [<- | []]; reflexivity.
Qed.

(** X9.  [get_subnets] returns the list of the describe answer as it is,
  in the provider's order; when the VPC has no subnet it returns the
  empty list, not [None]; and it raises exactly when the describe call
  raises, with the same error. *)
Theorem get_subnets_returns_all (region vpc_id : string) (w : World) :
let c := boto3_client "ec2" region in
let find := ec2.describe_subnets [mkFilter "vpc-id" [vpc_id]] in
let r := run provider (get_subnets region vpc_id) w in
(forall subnets,
    outcome r = Returned subnets <->
    answer provider w c find = inr {| Subnets := subnets |})
/\ (forall err,
       outcome r = Raised err <-> answer provider w c find = inl err).
Proof.
intros c find r. subst r. rewrite get_subnets_run. fold c. fold find.
destruct (answer provider w c find) as [err | [subnets]]; simpl.
- split; intros x; split; intro H; try discriminate;
    injection H as ->; reflexivity.
- split; intros x; split; intro H; try discriminate;
    injection H as ->; reflexivity.
Qed.

(** X10.  Every request of every function goes through the EC2 client of
  the region it was given: the teardown, the provisioning functions and
  the lookups never address another region or service. *)
Theorem requests_stay_in_region (region : string) (w : World) :
let here (t : list Event) :=
  forall e, In e t -> ev_client e = mkClient "ec2" region in
(forall cidr_block,
    here (trace (run provider (delete_vpc_resources region cidr_block) w)))
/\ (forall cidr_block vpc_name wait,
       here (trace (run provider
                      (create_vpc region cidr_block vpc_name wait) w)))
/\ (forall vpc_id igw_name,
       here (trace (run provider
                      (create_internet_gateway region vpc_id igw_name) w)))
/\ (forall vpc_id igw_id rtb_name,
       here (trace (run provider
                      (create_public_route_table region vpc_id igw_id
                         rtb_name) w)))
/\ (forall vpc_id subnet_cidr_block subnet_name,
       here (trace (run provider
                      (create_subnet region vpc_id subnet_cidr_block
                         subnet_name) w)))
/\ (forall rtb_id subnet_id,
       here (trace (run provider
                      (associate_public_route region rtb_id subnet_id) w)))
/\ (forall key, here (trace (run provider (get_vpc_id region key) w)))
/\ (forall key,
       here (trace (run provider
                      (get_vpc_internet_gateway_id region key) w)))
/\ (forall key,
       here (trace (run provider
                      (get_public_route_table_info region key) w)))
/\ (forall key, here (trace (run provider (get_subnets region key) w))).
Proof.
intro here. subst here. cbv beta.
pose (P := fun (c : Client) (_ : ec2.request) => c = mkClient "ec2" region).
assert (HP : forall r, P (boto3_client "ec2" region) r) by reflexivity.
destruct (provisioning_calls P region) as (H1 & H2 & H3 & H4 & H5);
  [auto |].
destruct (lookup_calls P region) as (L1 & L2 & L3 & L4); [auto |].
assert (T : forall cidr_block,
           calls_satisfy P (delete_vpc_resources region cidr_block))
  by (intro; apply teardown_calls; auto).
repeat split; intros;
  match goal with
  | He : In ?e (trace (run provider ?p w)) |- _ =>
      apply (calls_satisfy_sound provider P p w); auto
  end.
Qed.

(** X11.  The teardown only reads and removes: in any run every request
  of [delete_vpc_resources] is a describe or a removal (delete, detach,
  disassociate, tag deletion); it never creates, attaches, tags or
  modifies anything. *)
Theorem teardown_only_reads_and_removes
  (region cidr_block : string) (w : World) :
forall e,
  In e (trace (run provider (delete_vpc_resources region cidr_block) w)) ->
  is_describe (ev_request e) || is_removal (ev_request e) = true.
Proof.
intros e He.
apply (calls_satisfy_sound provider
         (fun _ r => is_describe r || is_removal r = true)
         (delete_vpc_resources region cidr_block) w); [| exact He].
apply teardown_calls. auto.
Qed.
End NeverRequested.

(** ** Teardown: tags, failures, and the whole sequence *)

Lemma just_done_snoc (pre : list Event) (e : Event) (req : ec2.request) :
  ev_request e = req -> ev_ok e = true -> just_done (pre ++ [e]) req.
Proof.
  intros Hreq Hok. exists pre, e. auto.
Qed.

Ltac tag_ok :=
  first [ exact I
        | solve [apply just_done_snoc; reflexivity]
        | solve [eexists; apply just_done_snoc; reflexivity] ].

Ltac tag_step :=
  cbn [safe bind call when_some teardown_tag_guard];
  split; [tag_ok | intros []].

Lemma subnets_then_vpc_tagged (c : Client) (vpc_id : string)
    (subnets : list SubnetInfo) (pre : list Event) :
  safe teardown_tag_guard pre
    (for_each subnets (fun subnet =>
       let subnet_id := SubnetId subnet in
       call c (ec2.delete_tags [subnet_id]) ;;
       call c (ec2.delete_subnet subnet_id)) ;;
     call c (ec2.delete_tags [vpc_id]) ;;
     call c (ec2.delete_vpc vpc_id)).
Proof.
  apply safe_bind.
  - apply safe_for_each with (J := fun _ => True); auto.
    intros pre' x _. tag_step. tag_step. exact I.
  - intros t [] _. tag_step. tag_step. exact I.
Qed.

Lemma delete_vpc_resources_tagged (region cidr_block : string) :
  safe teardown_tag_guard [] (delete_vpc_resources region cidr_block).
Proof.
  unfold delete_vpc_resources, get_vpc_id, get_vpc_internet_gateway_id,
    get_public_route_table_info, get_subnets.
  set (c := boto3_client "ec2" region).
  cbn [safe bind call when_some teardown_tag_guard].
  split; [exact I |]. intros [vpcs].
  destruct vpcs as [| vpc others];
    cbn [safe bind call when_some teardown_tag_guard Vpcs]; [exact I |].
  split; [exact I |]. intros [igws].
  destruct igws as [| igw igws];
    cbn [safe bind call when_some teardown_tag_guard InternetGateways].
  - split; [exact I |]. intros [subnets].
    apply subnets_then_vpc_tagged.
  - split; [exact I |]. intros [rtbs].
    destruct rtbs as [| rtb rtbs];
      cbn [safe bind call when_some teardown_tag_guard RouteTables].
    + tag_step. tag_step. tag_step.
      cbn [safe bind call when_some teardown_tag_guard].
      split; [exact I |]. intros [subnets].
      apply subnets_then_vpc_tagged.
    + do 2 apply safe_bind_assoc.
      apply safe_bind.
      { apply safe_for_each with (J := fun _ => True); auto.
        intros pre' x _. cbn. auto. }
      intros t [] _.
      tag_step. tag_step. tag_step. tag_step. tag_step.
      cbn [safe bind call when_some teardown_tag_guard].
      split; [exact I |]. intros [subnets].
      apply subnets_then_vpc_tagged.
Qed.

Lemma delete_vpc_resources_never_raises (region cidr_block : string) :
  never_raises (delete_vpc_resources region cidr_block).
Proof.
  unfold delete_vpc_resources, get_vpc_id, get_vpc_internet_gateway_id,
    get_public_route_table_info, get_subnets, when_some.
  repeat first
    [ exact I
    | progress cbn
    | intro
    | match goal with
      | |- context [match ?l with _ => _ end] => destruct l
      end
    | apply never_raises_bind
    | apply never_raises_for_each ].
Qed.

Lemma flat_map_quiet (X Y : Type) (f : X -> list Y) (l : list X) :
  (forall x, In x l -> f x = []) -> flat_map f l = [].
Proof.
  induction l as [| x rest IH]; intro H; simpl; [reflexivity |].
  rewrite (H x), IH; simpl; auto.
  intros y Hy. apply H. simpl. auto.
Qed.

Lemma requests_subnet_events (c : Client) (subnets : list SubnetInfo) :
  requests
    (flat_map (fun s =>
                 [Ev c (ec2.delete_tags [SubnetId s]) (inr tt);
                  Ev c (ec2.delete_subnet (SubnetId s)) (inr tt)]) subnets)
  = flat_map (fun s => [ec2.delete_tags [SubnetId s];
                        ec2.delete_subnet (SubnetId s)]) subnets.
Proof.
  unfold requests.
  induction subnets as [| s rest IH]; simpl; [reflexivity |].
  rewrite IH. reflexivity.
Qed.

Lemma requests_disassociations (c : Client)
    (xs : list RouteTableAssociation) :
  requests
    (map (fun a =>
            Ev c (ec2.disassociate_route_table (RouteTableAssociationId a))
               (inr tt)) xs)
  = map (fun a => ec2.disassociate_route_table (RouteTableAssociationId a))
        xs.
Proof.
  unfold requests. rewrite map_map. reflexivity.
Qed.

(** The events of the two loops carry no lookup answer. *)
Lemma disassociations_quiet (c : Client) (xs : list RouteTableAssociation) :
  let t := map (fun a =>
                  Ev c (ec2.disassociate_route_table
                          (RouteTableAssociationId a)) (inr tt)) xs in
  flat_map ev_vpcs t = [] /\ flat_map ev_gateways t = []
  /\ flat_map ev_route_tables t = [] /\ flat_map ev_subnets t = [].
Proof.
  induction xs as [| x rest IH]; simpl; [auto |].
  exact IH.
Qed.

Lemma subnet_events_quiet (c : Client) (xs : list SubnetInfo) :
  let t := flat_map (fun s =>
                       [Ev c (ec2.delete_tags [SubnetId s]) (inr tt);
                        Ev c (ec2.delete_subnet (SubnetId s)) (inr tt)]) xs in
  flat_map ev_vpcs t = [] /\ flat_map ev_gateways t = []
  /\ flat_map ev_route_tables t = [] /\ flat_map ev_subnets t = [].
Proof.
  induction xs as [| x rest IH]; simpl; [auto |].
  exact IH.
Qed.

Lemma returns_subnets_then_vpc (c : Client) (vpc_id : string)
    (subnets : list SubnetInfo) (t : list Event) :
  returns
    (for_each subnets (fun subnet =>
       let subnet_id := SubnetId subnet in
       call c (ec2.delete_tags [subnet_id]) ;;
       call c (ec2.delete_subnet subnet_id)) ;;
     call c (ec2.delete_tags [vpc_id]) ;;
     call c (ec2.delete_vpc vpc_id)) t tt ->
  t = flat_map (fun s =>
                  [Ev c (ec2.delete_tags [SubnetId s]) (inr tt);
                   Ev c (ec2.delete_subnet (SubnetId s)) (inr tt)]) subnets
      ++ [Ev c (ec2.delete_tags [vpc_id]) (inr tt);
          Ev c (ec2.delete_vpc vpc_id) (inr tt)].
Proof.
  intro H. apply returns_bind in H.
  destruct H as (t1 & [] & t2 & H1 & H2 & ->).
  apply returns_subnet_loop in H1. subst t1.
  cbn in H2. destruct H2 as ([] & t3 & -> & [] & t4 & -> & -> & _).
  reflexivity.
Qed.

Section TeardownRuns.
Variable World : Type.
Variable provider : Provider World.

(** X12.  In every run of [delete_vpc_resources], each deletion of a
  route table, a subnet or the VPC comes right after the successful
  deletion of that resource's tags; the gateway is detached right after
  the deletion of its tags and deleted right after its detachment. *)
Theorem teardown_tags_deleted_just_before
  (region cidr_block : string) (w : World) :
tags_deleted_just_before
  (trace (run provider (delete_vpc_resources region cidr_block) w)).
Proof.
intros pre e post H.
apply (safe_sound teardown_tag_guard provider _ [] w
         (delete_vpc_resources_tagged region cidr_block) pre e post H).
Qed.

(** X13.  [delete_vpc_resources] fails only where the provider does.
  When it raises, the error is the one the last request of the trace
  raised, unchanged, and every earlier request had succeeded: the
  teardown stops at the first failure.  When it returns, no request
  failed. *)
Theorem teardown_raises_provider_error
  (region cidr_block : string) (w : World) :
let r := run provider (delete_vpc_resources region cidr_block) w in
(forall err,
    outcome r = Raised err ->
    exists pre e,
      trace r = pre ++ [e] /\ ev_error e = Some err
      /\ forall e', In e' pre -> ev_ok e' = true)
/\ (outcome r = Returned tt ->
    forall e, In e (trace r) -> ev_ok e = true).
Proof.
intro r.
destruct (never_raises_sound provider _ w
            (@delete_vpc_resources_never_raises region cidr_block))
  as [H1 H2].
split; [exact H1 | exact (H2 tt)].
Qed.

(** X14.  A teardown that returns made exactly the requests of the
  dependency order, given what its lookups answered: the VPC lookup;
  then, if a VPC was found, the gateway lookup; if a gateway was found,
  the route table lookup, the disassociation of every association of the
  table found, the deletion of its tags and of the table, then tag
  deletion, detachment and deletion of the gateway; then the subnet
  lookup, tag deletion and deletion of each subnet in the listed order;
  and last tag deletion and deletion of the VPC. *)
Theorem teardown_follows_plan (region cidr_block : string) (w : World) :
let t := trace (run provider (delete_vpc_resources region cidr_block) w) in
outcome (run provider (delete_vpc_resources region cidr_block) w)
= Returned tt ->
requests t
= teardown_plan cidr_block (flat_map ev_vpcs t) (flat_map ev_gateways t)
    (flat_map ev_route_tables t) (flat_map ev_subnets t).
Proof.
intros t H. apply run_returns in H. fold t in H. clearbody t.
unfold delete_vpc_resources, get_vpc_id, get_vpc_internet_gateway_id,
  get_public_route_table_info, get_subnets in H.
set (c := boto3_client "ec2" region) in *.
cbn [returns bind call when_some] in H.
destruct H as ([vpcs] & t1 & -> & H).
destruct vpcs as [| vpc others]; cbn [returns bind call when_some Vpcs] in H.
{ destruct H as [-> _]. reflexivity. }
destruct H as ([igws] & t2 & -> & H).
destruct igws as [| igw igws];
  cbn [returns bind call when_some InternetGateways] in H.
- (* no gateway *)
  destruct H as ([subnets] & t3 & -> & H).
  apply returns_subnets_then_vpc in H. subst t3.
  destruct (subnet_events_quiet c subnets) as (Q1 & Q2 & Q3 & Q4).
  cbv zeta in Q1, Q2, Q3, Q4.
  pose proof (requests_subnet_events c subnets) as Q5.
  unfold requests in *. simpl.
  rewrite ?flat_map_app, ?map_app, ?Q1, ?Q2, ?Q3, ?Q4, ?Q5. simpl.
  rewrite ?app_nil_r. reflexivity.
- destruct H as ([rtbs] & t3 & -> & H).
  destruct rtbs as [| rtb rtbs];
    cbn [returns bind call when_some RouteTables] in H.
  + (* gateway, no route table *)
    destruct H as ([] & t4 & -> & [] & t5 & -> & [] & t6 & ->
                   & [subnets] & t7 & -> & H).
    apply returns_subnets_then_vpc in H. subst t7.
    destruct (subnet_events_quiet c subnets) as (Q1 & Q2 & Q3 & Q4).
    cbv zeta in Q1, Q2, Q3, Q4.
    pose proof (requests_subnet_events c subnets) as Q5.
    unfold requests in *. simpl.
    rewrite ?flat_map_app, ?map_app, ?Q1, ?Q2, ?Q3, ?Q4, ?Q5. simpl.
    rewrite ?app_nil_r. reflexivity.
  + (* gateway and route table *)
    apply returns_bind in H.
    destruct H as (ta & a & tb & Ha & Hb & ->).
    apply returns_bind in Ha.
    destruct Ha as (tc & a' & td & Hc & Hd & ->).
    apply returns_bind in Hc.
    destruct Hc as (te & a'' & tf & He & Hf & ->).
    apply returns_disassociate_loop in He. subst te.
    cbn [returns bind call] in Hf, Hd, Hb.
    destruct Hf as ([] & t4 & -> & [] & t5 & -> & -> & _).
    destruct Hd as ([] & t6 & -> & [] & t7 & -> & [] & t8 & -> & -> & _).
    destruct Hb as ([subnets] & t9 & -> & H).
    apply returns_subnets_then_vpc in H. subst t9.
    destruct (subnet_events_quiet c subnets) as (Q1 & Q2 & Q3 & Q4).
    destruct (disassociations_quiet c (Associations rtb))
      as (D1 & D2 & D3 & D4).
    cbv zeta in Q1, Q2, Q3, Q4, D1, D2, D3, D4.
    pose proof (requests_subnet_events c subnets) as Q5.
    pose proof (requests_disassociations c (Associations rtb)) as D5.
    unfold requests in *. simpl.
    rewrite ?flat_map_app, ?map_app,
      ?Q1, ?Q2, ?Q3, ?Q4, ?Q5, ?D1, ?D2, ?D3, ?D4, ?D5.
    simpl.
    rewrite ?flat_map_app, ?map_app,
      ?Q1, ?Q2, ?Q3, ?Q4, ?Q5, ?D1, ?D2, ?D3, ?D4, ?D5.
    simpl. rewrite ?app_nil_r. unfold teardown_plan. simpl.
    rewrite <- ?app_assoc. simpl. reflexivity.
Qed.
End TeardownRuns.

(** ** The entry point *)

Section MainRuns.
Variable World : Type.
Variable provider : Provider World.

Lemma try_or_exit_events (A : Type) (p : py A) (w : World)
  (rest : A -> World -> Result World (option nat)) (e : Event) :
In e (trace (try_or_exit provider p w rest)) ->
In e (trace (run provider p w))
\/ exists a, In e (trace (rest a (world (run provider p w)))).
Proof.
unfold try_or_exit.
destruct (outcome (run provider p w)) as [a | err]; simpl; [| auto].
intro H. apply in_app_or in H. destruct H; eauto.
Qed.

(** X15.  In create mode [main] never requests a removal, whatever fails:
  a provisioning run that stops half way leaves what it created, and no
  request rolls it back. *)
Theorem main_create_never_removes (w : World) :
forall e, In e (trace (main provider false w)) ->
          is_removal (ev_request e) = false.
Proof.
intros e He.
destruct (provisioning_calls (fun _ r => is_removal r = false) "us-west-1")
  as (H1 & H2 & H3 & H4 & H5); [auto |].
unfold main in He.
repeat (apply try_or_exit_events in He;
        destruct He as [He | [? He]];
        [ eapply (calls_satisfy_sound provider
                    (fun _ r => is_removal r = false));
          [| exact He]; auto | ]).
destruct He.
Qed.


(** A caught step after which [main] still returns went through, and
  [main] went on from the state it left. *)
Lemma try_or_exit_none (A : Type) (p : py A) (w : World)
  (rest : A -> World -> Result World (option nat)) :
outcome (try_or_exit provider p w rest) = Returned None ->
exists a t w',
  returns p t a
  /\ outcome (rest a w') = Returned None
  /\ trace (try_or_exit provider p w rest) = t ++ trace (rest a w').
Proof.
unfold try_or_exit.
destruct (outcome (run provider p w)) as [a | err] eqn:E; simpl;
  [| discriminate].
intro H. exists a, (trace (run provider p w)), (world (run provider p w)).
auto using run_returns.
Qed.


(** X17.  When [main] returns in create mode it made sixteen requests, all
  answered without error, in the order VPC, gateway, route table, public
  subnet, association, private subnet.  The only association and the
  only public IP flag are those of the first subnet: the second subnet
  is created, tagged and left private. *)
Theorem main_create_order (w : World) :
outcome (main provider false w) = Returned None ->
exists vpc igw rtb subnet01 association subnet02,
  let c := boto3_client "ec2" "us-west-1" in
  let vpc_id := VpcId (Vpc vpc) in
  let igw_id := InternetGatewayId (InternetGateway igw) in
  let rtb_id := RouteTableId (RouteTable rtb) in
  let subnet01_id := SubnetId (Subnet subnet01) in
  let subnet02_id := SubnetId (Subnet subnet02) in
  trace (main provider false w)
  = [Ev c (ec2.create_vpc "10.1.0.0/16") (inr vpc);
     Ev c (ec2.wait "vpc_available" [vpc_id]) (inr tt);
     Ev c (ec2.create_tags [vpc_id] (name_tag "vpc-boto3")) (inr tt);
     Ev c (ec2.modify_vpc_attribute vpc_id (EnableDnsHostnames true))
        (inr tt);
     Ev c ec2.create_internet_gateway (inr igw);
     Ev c (ec2.create_tags [igw_id] (name_tag "igw-boto3")) (inr tt);
     Ev c (ec2.attach_internet_gateway igw_id vpc_id) (inr tt);
     Ev c (ec2.create_route_table vpc_id) (inr rtb);
     Ev c (ec2.create_route rtb_id "0.0.0.0/0" igw_id)
        (inr {| Return := true |});
     Ev c (ec2.create_tags [rtb_id] (name_tag "rtb-boto3-public"))
        (inr tt);
     Ev c (ec2.create_subnet vpc_id "10.1.0.0/28") (inr subnet01);
     Ev c (ec2.create_tags [subnet01_id]
             (name_tag "subnet-boto3-01-public")) (inr tt);
     Ev c (ec2.associate_route_table rtb_id subnet01_id)
        (inr association);
     Ev c (ec2.modify_subnet_attribute subnet01_id
             (MapPublicIpOnLaunch true)) (inr tt);
     Ev c (ec2.create_subnet vpc_id "10.1.1.0/28") (inr subnet02);
     Ev c (ec2.create_tags [subnet02_id]
             (name_tag "subnet-boto3-02-private")) (inr tt)].
Proof.
cbv beta iota zeta delta [main]. intro H.
apply try_or_exit_none in H.
destruct H as (vpc & t1 & w1 & E1 & H & ->).
cbn in E1.
destruct E1 as (vpc' & ? & -> & [] & ? & -> & [] & ? & -> & [] & ?
                & -> & -> & ->).
apply try_or_exit_none in H.
destruct H as (igw & t2 & w2 & E2 & H & ->).
cbn in E2.
destruct E2 as (igw' & ? & -> & [] & ? & -> & [] & ? & -> & -> & ->).
apply try_or_exit_none in H.
destruct H as (rtb & t3 & w3 & E3 & H & ->).
cbn in E3.
destruct E3 as (rtb' & ? & -> & [[|]] & ? & -> & E3); cbn in E3;
  [| contradiction].
destruct E3 as ([] & ? & -> & -> & ->).
apply try_or_exit_none in H.
destruct H as (subnet01 & t4 & w4 & E4 & H & ->).
cbn in E4.
destruct E4 as (s1 & ? & -> & [] & ? & -> & -> & ->).
apply try_or_exit_none in H.
destruct H as (aid & t5 & w5 & E5 & H & ->).
cbn in E5.
destruct E5 as (association & ? & -> & [] & ? & -> & -> & ->).
apply try_or_exit_none in H.
destruct H as (subnet02 & t6 & w6 & E6 & H & ->).
cbn in E6.
destruct E6 as (s2 & ? & -> & [] & ? & -> & -> & ->).
exists vpc', igw', rtb', s1, association, s2. reflexivity.
Qed.
End MainRuns.

(** ** More concrete runs against the test double *)

Lemma create_internet_gateway_success_witness :
  let c := boto3_client "ec2" "us-west-1" in
  trace (run Fake.provider
           (create_internet_gateway "us-west-1" "vpc-0" (Some "igw-boto3"))
           Fake.bare_vpc)
  = [Ev c ec2.create_internet_gateway
        (inr {| InternetGateway := mkIgw "igw-1" |});
     Ev c (ec2.create_tags ["igw-1"] (name_tag "igw-boto3")) (inr tt);
     Ev c (ec2.attach_internet_gateway "igw-1" "vpc-0") (inr tt)].
Proof.
  apply (@create_internet_gateway_success Fake.Cloud Fake.provider
           "us-west-1" "vpc-0" (Some "igw-boto3") Fake.bare_vpc
           {| InternetGateway := mkIgw "igw-1" |}).
  reflexivity.
Defined.

Lemma create_internet_gateway_tag_failure_witness :
  let r := run (failing_on is_create_tags)
             (create_internet_gateway "us-west-1" "vpc-0" (Some "igw-boto3"))
             Fake.bare_vpc in
  outcome r = Raised (Fake.violation "injected")
  /\ count is_attach (trace r) = 0
  /\ count is_removal (trace r) = 0.
Proof.
  destruct (@create_internet_gateway_tag_failure Fake.Cloud
              (failing_on is_create_tags) "us-west-1" "vpc-0" "igw-boto3"
              Fake.bare_vpc {| InternetGateway := mkIgw "igw-1" |}
              (Fake.violation "injected") eq_refl eq_refl)
    as (H1 & _ & H2 & H3).
  repeat split; assumption.
Defined.

Lemma create_vpc_wait_failure_witness :
  let r := run (failing_on is_wait)
             (create_vpc "us-west-1" "10.1.0.0/16" (Some "vpc-boto3") true)
             Fake.empty in
  outcome r = Raised (Fake.violation "injected")
  /\ count is_create_tags (trace r) = 0
  /\ count is_modify_vpc_attribute (trace r) = 0.
Proof.
  destruct (@create_vpc_wait_failure Fake.Cloud (failing_on is_wait)
              "us-west-1" "10.1.0.0/16" (Some "vpc-boto3") Fake.empty
              {| Vpc := mkVpc "vpc-0" "10.1.0.0/16" |}
              (Fake.violation "injected") eq_refl eq_refl)
    as (H1 & _ & H2 & H3).
  repeat split; assumption.
Defined.

Lemma create_public_route_table_success_witness :
  let c := boto3_client "ec2" "us-west-1" in
  trace (run Fake.provider
           (create_public_route_table "us-west-1" "vpc-0" "igw-1"
              (Some "rtb-boto3-public")) Fake.no_route_table)
  = [Ev c (ec2.create_route_table "vpc-0")
        (inr {| RouteTable := mkRtb "rtb-4" [] |});
     Ev c (ec2.create_route "rtb-4" "0.0.0.0/0" "igw-1")
        (inr {| Return := true |});
     Ev c (ec2.create_tags ["rtb-4"] (name_tag "rtb-boto3-public"))
        (inr tt)].
Proof.
  apply (@create_public_route_table_success Fake.Cloud Fake.provider
           "us-west-1" "vpc-0" "igw-1" (Some "rtb-boto3-public")
           Fake.no_route_table {| RouteTable := mkRtb "rtb-4" [] |}).
  reflexivity.
Defined.

Lemma create_subnet_private_witness :
  let c := boto3_client "ec2" "us-west-1" in
  trace (run Fake.provider
           (create_subnet "us-west-1" "vpc-0" "10.1.1.0/28"
              (Some "subnet-boto3-02-private")) Fake.bare_vpc)
  = [Ev c (ec2.create_subnet "vpc-0" "10.1.1.0/28")
        (inr {| Subnet := mkSubnet "subnet-1" "vpc-0" |});
     Ev c (ec2.create_tags ["subnet-1"]
             (name_tag "subnet-boto3-02-private")) (inr tt)].
Proof.
  destruct (@create_subnet_private Fake.Cloud Fake.provider
              "us-west-1" "vpc-0" "10.1.1.0/28"
              (Some "subnet-boto3-02-private") Fake.bare_vpc) as [_ H].
  apply (H {| Subnet := mkSubnet "subnet-1" "vpc-0" |}). reflexivity.
Defined.

Lemma associate_public_route_flag_failure_witness :
  let r := run (failing_on is_modify_subnet_attribute)
             (associate_public_route "us-west-1" "rtb-2" "subnet-5")
             Fake.provisioned in
  outcome r = Raised (Fake.violation "injected")
  /\ done_in (trace r) (ec2.associate_route_table "rtb-2" "subnet-5")
  /\ count is_removal (trace r) = 0.
Proof.
  destruct (@associate_public_route_flag_failure Fake.Cloud
              (failing_on is_modify_subnet_attribute)
              "us-west-1" "rtb-2" "subnet-5" Fake.provisioned
              {| AssociationId := "rtbassoc-6" |}
              (Fake.violation "injected") eq_refl eq_refl)
    as (H1 & _ & H2 & H3).
  repeat split; assumption.
Defined.

Lemma provisioning_never_removes_witness :
  is_removal (ec2.create_vpc "10.1.0.0/16") = false.
Proof.
  destruct (@provisioning_never_removes Fake.Cloud Fake.provider
              "us-west-1" Fake.empty) as [H _].
  apply (H "10.1.0.0/16" None false
           (Ev (boto3_client "ec2" "us-west-1")
               (ec2.create_vpc "10.1.0.0/16")
               (inr {| Vpc := mkVpc "vpc-0" "10.1.0.0/16" |}))).
  left. reflexivity.
Defined.

Lemma lookups_read_only_witness :
  length (trace (run Fake.provider (get_vpc_id "us-west-1" "10.1.0.0/16")
                   Fake.provisioned)) = 1
  /\ is_describe (ec2.describe_subnets [mkFilter "vpc-id" ["10.1.0.0/16"]])
     = true.
Proof.
  destruct (@lookups_read_only Fake.Cloud Fake.provider
              "us-west-1" "10.1.0.0/16" Fake.provisioned)
    as ([H1 _] & _ & _ & [_ H4]).
  split; [exact H1 |].
  apply (H4 (Ev (boto3_client "ec2" "us-west-1")
                (ec2.describe_subnets [mkFilter "vpc-id" ["10.1.0.0/16"]])
                (inr {| Subnets := [] |}))).
  left. reflexivity.
Defined.

Lemma get_subnets_returns_all_witness :
  outcome (run Fake.provider (get_subnets "us-west-1" "vpc-0")
             Fake.no_route_table)
  = Returned [mkSubnet "subnet-2" "vpc-0"; mkSubnet "subnet-3" "vpc-0"].
Proof.
  destruct (@get_subnets_returns_all Fake.Cloud Fake.provider
              "us-west-1" "vpc-0" Fake.no_route_table) as [H _].
  apply H. reflexivity.
Defined.

Lemma requests_stay_in_region_witness :
  ev_client (Ev (boto3_client "ec2" "us-west-1")
               (ec2.describe_vpcs [mkFilter "cidr" ["10.1.0.0/16"]])
               (inr {| Vpcs := [] |}))
  = mkClient "ec2" "us-west-1".
Proof.
  destruct (@requests_stay_in_region Fake.Cloud Fake.provider
              "us-west-1" Fake.empty) as [H _].
  apply (H "10.1.0.0/16"). left. reflexivity.
Defined.

Lemma teardown_only_reads_and_removes_witness :
  is_describe (ec2.delete_vpc "vpc-0") || is_removal (ec2.delete_vpc "vpc-0")
  = true.
Proof.
  apply (@teardown_only_reads_and_removes Fake.Cloud Fake.provider
           "us-west-1" "10.1.0.0/16" Fake.bare_vpc
           (Ev (boto3_client "ec2" "us-west-1") (ec2.delete_vpc "vpc-0")
               (inr tt))).
  do 4 right. left. reflexivity.
Defined.

Lemma teardown_tags_deleted_just_before_witness :
  let t := trace (run Fake.provider
                    (delete_vpc_resources "us-west-1" "10.1.0.0/16")
                    Fake.provisioned) in
  just_done (firstn 15 t) (ec2.delete_tags ["vpc-0"])
  /\ just_done (firstn 5 t) (ec2.delete_tags ["rtb-2"]).
Proof.
  intro t. split.
  - apply (@teardown_tags_deleted_just_before Fake.Cloud Fake.provider
             "us-west-1" "10.1.0.0/16" Fake.provisioned (firstn 15 t)
             (Ev (boto3_client "ec2" "us-west-1") (ec2.delete_vpc "vpc-0")
                 (inr tt)) []).
    vm_compute. reflexivity.
  - apply (@teardown_tags_deleted_just_before Fake.Cloud Fake.provider
             "us-west-1" "10.1.0.0/16" Fake.provisioned (firstn 5 t)
             (Ev (boto3_client "ec2" "us-west-1")
                 (ec2.delete_route_table "rtb-2") (inr tt)) (skipn 6 t)).
    vm_compute. reflexivity.
Defined.

Lemma teardown_raises_provider_error_witness :
  let r := run (failing_on is_delete_vpc)
             (delete_vpc_resources "us-west-1" "10.1.0.0/16")
             Fake.provisioned in
  exists pre e,
    trace r = pre ++ [e] /\ ev_error e = Some (Fake.violation "injected")
    /\ forall e', In e' pre -> ev_ok e' = true.
Proof.
  destruct (@teardown_raises_provider_error Fake.Cloud
              (failing_on is_delete_vpc) "us-west-1" "10.1.0.0/16"
              Fake.provisioned) as [H _].
  apply H. reflexivity.
Defined.

Lemma teardown_follows_plan_witness :
  let t := trace (run Fake.provider
                    (delete_vpc_resources "us-west-1" "10.1.0.0/16")
                    Fake.provisioned) in
  requests t
  = teardown_plan "10.1.0.0/16" (flat_map ev_vpcs t) (flat_map ev_gateways t)
      (flat_map ev_route_tables t) (flat_map ev_subnets t).
Proof.
  apply (@teardown_follows_plan Fake.Cloud Fake.provider
           "us-west-1" "10.1.0.0/16" Fake.provisioned).
  reflexivity.
Defined.

Lemma main_create_never_removes_witness :
  is_removal (ec2.create_vpc "10.1.0.0/16") = false.
Proof.
  apply (@main_create_never_removes Fake.Cloud Fake.provider Fake.empty
           (Ev (boto3_client "ec2" "us-west-1")
               (ec2.create_vpc "10.1.0.0/16")
               (inr {| Vpc := mkVpc "vpc-0" "10.1.0.0/16" |}))).
  left. reflexivity.
Defined.


Lemma main_create_order_witness :
  let t := trace (main Fake.provider false Fake.empty) in
  length t = 16
  /\ count is_publishing t = 2
  /\ forall e, In e t -> ev_ok e = true.
Proof.
  assert (H0 : outcome (main Fake.provider false Fake.empty) = Returned None)
    by (vm_compute; reflexivity).
  destruct (@main_create_order Fake.Cloud Fake.provider Fake.empty H0)
    as (vpc & igw & rtb & s1 & a & s2 & H).
  cbv zeta in H. cbv zeta. rewrite H.
  split; [reflexivity |]. split; [reflexivity |].
  intros e He. simpl in He.
  repeat (destruct He as [<- | He]; [reflexivity |]).
  destruct He.
Defined.
